(** * web/templates.go: template managers, middleware dispatch and the
      error-rendering chain.

    The Go package is embedded shallowly: every function of
    [web/templates.go] becomes a Rocq function of the same name.  Calls on
    the [http.ResponseWriter], on the logger and on the template manager are
    effects; they are recorded, in program order, in the [effects] of a
    [World] that is threaded through a small state-and-panic monad [M]. *)

From Stdlib Require Import ZArith List String Ascii Bool Lia.
From stdpp Require Import base option list strings gmap pretty.

Local Open Scope Z_scope.
Local Open Scope string_scope.

(** ** Go errors *)

(** An [error] value.  Three shapes cover what [handleError] can tell apart
    through [errors.As]: a plain error ([errors.New], [fmt.Errorf] without
    [%w]), an error whose dynamic type has a [Status() int] method, and an
    error wrapping another one ([fmt.Errorf] with [%w]). *)
Inductive error : Type :=
| errorString (msg : string)
| statusError (code : Z) (msg : string)
| wrapError (msg : string) (inner : error).

(** [err.Error()]. *)
Definition error_Error (e : error) : string :=
  match e with
  | errorString msg => msg
  | statusError _ msg => msg
  | wrapError msg _ => msg
  end.

(** Modelled from the spec: the declaration of the [ErrorResponse] interface
    is not part of [templates.go].  The spec gives it two operations, a
    status code and a human-readable message; the code calls them
    [er.Status()] and [er.Error()].  A non-nil interface value is the record
    of what the two methods return; the nil interface is [None] of
    [option ErrorResponse]. *)
Record ErrorResponse : Type := { Status : Z; Error : string }.

(** [errors.As(err, &er)]: the first error of the [Unwrap] chain that
    implements [ErrorResponse]; [None] leaves [er] at its zero value nil. *)
Fixpoint errors_As (err : error) : option ErrorResponse :=
  match err with
  | errorString _ => None
  | statusError code msg => Some {| Status := code; Error := msg |}
  | wrapError _ inner => errors_As inner
  end.

(** ** Values handed to a template: Go's [interface{}] *)
Inductive Data : Type :=
| DataNil
| DataErrorResponse (er : ErrorResponse)
| DataValue (v : string).

(** The conversion of an [ErrorResponse] interface value to [interface{}]
    at the call [templated.Execute(w, er)]. *)
Definition data_of (er : option ErrorResponse) : Data :=
  match er with
  | Some r => DataErrorResponse r
  | None => DataNil
  end.

(** ** Template handles and template sets *)

(** A [*template.Template] that is not nil.  Executing it against a value
    is the engine's business: [body] gives the chunks the engine hands to
    the writer, in order, and the error (if any) it ends with.  Chunks
    together with an error describe an execution that fails partway. *)
Record Tmpl : Type := {
  tname : string;
  body : Data -> list string * option error
}.

(** The named set a [*template.Template] carries; [main.Lookup(name)] is the
    map lookup, nil when the name is absent. *)
Abbreviation TemplateSet := (gmap string Tmpl).

Definition dquote : string := String (ascii_of_nat 34) EmptyString.

(** [baseTemplate()]: [template.New("app")] registers the root under its own
    name; it has no parse tree, so executing it fails before any output.
    The function map attached by [Funcs] plays no part in lookups. *)
Definition baseTemplate : TemplateSet :=
  {[ "app" := {| tname := "app";
                 body := fun _ => ([], Some (errorString
                   ("template: " +:+ dquote +:+ "app" +:+ dquote +:+
                    " is an incomplete or empty template"))) |} ]}.

(** ** Effects *)

(** The call site a write comes from (a label, not data of the program). *)
Inductive origin : Type :=
| ByHandler      (* the page handler, through the capturing writer *)
| ByPage         (* gt.Execute(w, data) in ServeHTTP *)
| ByErrorChain   (* w.WriteHeader in handleError *)
| ByErrorPage    (* templated.Execute(w, er) in handleError *)
| ByFallback.    (* b.WriteTo(w) in writeBasicErrorResponse *)

Inductive level : Type := Info | Warn | Debug.

Inductive effect : Type :=
| EWriteHeader (o : origin) (code : Z)
| EWrite (o : origin) (p : string)
| ELookup (name : string)
| EExecute (o : origin) (name : string)
| ELog (lv : level) (msg : string).

Global Instance origin_eq_dec : EqDecision origin.
Proof. solve_decision. Defined.

(** ** The file system seen by the managers *)

Inductive result (A : Type) : Type :=
| Ok (a : A)
| Err (e : error).
Arguments Ok {A} a.
Arguments Err {A} e.

(** [fs.DirEntry]: only [Name()] is used. *)
Record DirEntry : Type := { Name : string }.

(** A directory tree as the library calls see it: [ReadDir] lists a
    directory; reading plus parsing one file either yields the body of the
    template defined by that file or fails (unreadable, a directory, a
    syntax error); [Stat] tells whether a path names a file; and
    [GlobMeta] is the list of files that [fs.Glob] finds for a pattern that
    holds metacharacters. *)
Record FS : Type := {
  ReadDir : string -> result (list DirEntry);
  ReadTemplate : string -> result (Data -> list string * option error);
  Stat : string -> bool;
  GlobMeta : string -> result (list string)
}.

(** ** The world and the monad *)

(** [wfail n] tells whether the (n+1)-th [Write] call on the response
    writer returns an error (a broken connection). *)
Record World : Type := {
  effects : list effect;
  wfail : nat -> bool;
  disk : FS
}.

Inductive panic : Type :=
| NilTemplateDescriptor   (* t.direct with t == nil *)
| NilErrorResponse        (* er.Error() with er == nil *)
| NilTemplateHandle.      (* Execute on a nil *template.Template *)

Inductive outcome (A : Type) : Type :=
| Return (a : A)
| Panic (p : panic).
Arguments Return {A} a.
Arguments Panic {A} p.

Definition M (A : Type) : Type := World -> outcome A * World.

Global Instance M_ret : MRet M := fun A a w => (Return a, w).

Global Instance M_bind : MBind M := fun A B f m w =>
  match m w with
  | (Return a, w') => f a w'
  | (Panic p, w') => (Panic p, w')
  end.

Definition raise {A : Type} (p : panic) : M A := fun w => (Panic p, w).

(** The world after the effects [es] have happened, in that order. *)
Definition record (w : World) (es : list effect) : World :=
  {| effects := effects w ++ es; wfail := wfail w; disk := disk w |}.

Definition emit (e : effect) : M unit := fun w => (Return tt, record w [e]).

Definition get_disk : M FS := fun w => (Return (disk w), w).

Definition is_write (e : effect) : bool :=
  match e with EWrite _ _ => true | _ => false end.

Definition writes_so_far (w : World) : nat :=
  length (filter (fun e => is_write e = true) (effects w)).

(** The error a failed [Write] returns. *)
Definition errWrite : error := errorString "write: broken pipe".

(** ** http.ResponseWriter *)

(** [w.WriteHeader(code)] is recorded as a call.  The writers of [net/http]
    refuse a code outside 100..999 by panicking; that is a property of the
    writer behind the interface and is not represented here: see
    [valid_code]. *)
Definition WriteHeader (o : origin) (code : Z) : M unit :=
  emit (EWriteHeader o code).

Definition Write (o : origin) (p : string) : M (option error) := fun w =>
  let failed := wfail w (writes_so_far w) in
  (Return (if failed then Some errWrite else None), record w [EWrite o p]).

(** ** golog.Logger and utils.UncheckedError *)

Definition Log (lv : level) (msg : string) : M unit := emit (ELog lv msg).

(** [utils.UncheckedError(err)]: reports a non-nil error to the global
    logger and returns. *)
Definition UncheckedError (err : option error) : M unit :=
  match err with
  | None => mret tt
  | Some e => Log Debug ("unchecked error " +:+ error_Error e)
  end.

(** ** Executing a template against a writer *)

Fixpoint write_chunks (o : origin) (cs : list string) : M (option error) :=
  match cs with
  | [] => mret None
  | c :: cs' =>
      r ← Write o c;
      match r with
      | Some e => mret (Some e)
      | None => write_chunks o cs'
      end
  end.

(** [t.Execute(w, data)].  The engine stops at the first write the writer
    refuses and returns that error; otherwise it returns its own. *)
Definition Execute (o : origin) (t : option Tmpl) (data : Data) : M (option error) :=
  match t with
  | None => raise NilTemplateHandle
  | Some t =>
      emit (EExecute o (tname t));;
      let '(cs, e) := body t data in
      r ← write_chunks o cs;
      match r with
      | Some we => mret (Some we)
      | None => mret e
      end
  end.

(** ** Strings and paths (package [strings] and [path/filepath], Unix) *)

(** [strings.ContainsAny(s, chars)] for ASCII [chars]. *)
Fixpoint ContainsAny (s chars : string) : bool :=
  match s with
  | EmptyString => false
  | String a s' =>
      existsb (Ascii.eqb a) (list_ascii_of_string chars) || ContainsAny s' chars
  end.

Definition slash : ascii := ascii_of_nat 47.

(** [strings.Split(s, "/")]. *)
Fixpoint split_slash (s : string) : list string :=
  match s with
  | EmptyString => [EmptyString]
  | String a s' =>
      if Ascii.eqb a slash then EmptyString :: split_slash s'
      else match split_slash s' with
           | h :: t => String a h :: t
           | [] => [String a EmptyString]
           end
  end.

(** [strings.Join(elems, "/")]. *)
Fixpoint join_slash (elems : list string) : string :=
  match elems with
  | [] => EmptyString
  | [x] => x
  | x :: rest => x +:+ String slash (join_slash rest)
  end.

(** One path element met by [filepath.Clean], the elements kept so far
    being [acc], last one first. *)
Definition clean_step (rooted : bool) (acc : list string) (c : string) : list string :=
  if String.eqb c "" || String.eqb c "." then acc
  else if String.eqb c ".." then
    match acc with
    | top :: rest => if String.eqb top ".." then c :: acc else rest
    | [] => if rooted then [] else [c]
    end
  else c :: acc.

Definition is_rooted (p : string) : bool :=
  match p with
  | String a _ => Ascii.eqb a slash
  | EmptyString => false
  end.

(** [filepath.Clean]. *)
Definition filepath_Clean (p : string) : string :=
  let rooted := is_rooted p in
  let kept := rev (fold_left (clean_step rooted) (split_slash p) []) in
  let out := (if rooted then String slash EmptyString else EmptyString) +:+ join_slash kept in
  if String.eqb out "" then "." else out.

(** [filepath.Join(root, x)]. *)
Definition filepath_Join (root x : string) : string :=
  if String.eqb root "" then
    (if String.eqb x "" then "" else filepath_Clean x)
  else filepath_Clean (root +:+ String slash x).

(** [filepath.Base]: the last element, trailing slashes removed. *)
Definition filepath_Base (p : string) : string :=
  if String.eqb p "" then "."
  else match rev (filter (fun c => c ≠ EmptyString) (split_slash p)) with
       | c :: _ => c
       | [] => String slash EmptyString
       end.

(** ** fixFiles *)

Definition fixFiles (files : list DirEntry) (root : string) : list string :=
  fold_left
    (fun newFiles e =>
       let x := Name e in
       if ContainsAny x "#~" then newFiles
       else (newFiles ++ [filepath_Join root x])%list)
    files [].

(** ** Parsing a list of files into a set *)

Fixpoint parse_each (t : TemplateSet) (d : FS) (filenames : list string) : result TemplateSet :=
  match filenames with
  | [] => Ok t
  | filename :: rest =>
      match ReadTemplate d filename with
      | Err e => Err e
      | Ok b =>
          let name := filepath_Base filename in
          parse_each (<[name := {| tname := name; body := b |}]> t) d rest
      end
  end.

(** [t.ParseFiles(filenames...)]: every file is read and parsed into the set
    under its base name, a later file replacing an earlier template of the
    same name; the first failure fails the whole call, and so does an empty
    list of files.  Templates that a file declares besides its own, with
    [define], are not represented. *)
Definition ParseFiles (t : TemplateSet) (d : FS) (filenames : list string) : result TemplateSet :=
  match filenames with
  | [] => Err (errorString "html/template: no files named in call to ParseFiles")
  | _ => parse_each t d filenames
  end.

(** [hasMeta] of package [io/fs]: the pattern holds one of the
    metacharacters of [path.Match]. *)
Definition hasMeta (pattern : string) : bool :=
  ContainsAny pattern (String "*" (String "?" (String "[" (String (ascii_of_nat 92) EmptyString)))).

(** [fs.Glob(fsys, pattern)]: a pattern without metacharacters names
    itself when the file exists and nothing otherwise. *)
Definition fs_Glob (d : FS) (pattern : string) : result (list string) :=
  if hasMeta pattern then GlobMeta d pattern
  else if Stat d pattern then Ok [pattern] else Ok [].

Definition backquote : string := String (ascii_of_nat 96) EmptyString.

(** The loop of [parseFS] over the patterns: the files that the patterns
    match, in order; a pattern that matches no file is an error. *)
Fixpoint glob_all (d : FS) (patterns : list string) : result (list string) :=
  match patterns with
  | [] => Ok []
  | pattern :: rest =>
      match fs_Glob d pattern with
      | Err e => Err e
      | Ok [] =>
          Err (errorString ("template: pattern matches no files: "
                            +:+ backquote +:+ pattern +:+ backquote))
      | Ok list =>
          match glob_all d rest with
          | Err e => Err e
          | Ok filenames => Ok (list ++ filenames)%list
          end
      end
  end.

(** [t.ParseFS(fs, patterns...)]: every argument is a glob pattern; the
    files the patterns match are parsed as [ParseFiles] parses them. *)
Definition ParseFS (t : TemplateSet) (d : FS) (patterns : list string) : result TemplateSet :=
  match glob_all d patterns with
  | Err e => Err e
  | Ok filenames => ParseFiles t d filenames
  end.

(** ** TemplateManager and its two implementations *)

Definition lookupTemplate (main : TemplateSet) (name : string) : option Tmpl * option error :=
  let t := main !! name in
  match t with
  | None => (None, Some (errorString ("cannot find template " +:+ name)))
  | Some _ => (t, None)
  end.

Inductive TemplateManager : Type :=
| embedTM (cachedTemplates : TemplateSet)
| fsTM (srcDir : string).

Definition embedTM_LookupTemplate (cachedTemplates : TemplateSet) (name : string)
  : option Tmpl * option error :=
  lookupTemplate cachedTemplates name.

(** [os.ReadDir] and [ParseFiles] see the directory as it is now, [d]. *)
Definition fsTM_LookupTemplate (srcDir : string) (d : FS) (name : string)
  : option Tmpl * option error :=
  match ReadDir d srcDir with
  | Err err => (None, Some err)
  | Ok files =>
      let newFiles := fixFiles files srcDir in
      match ParseFiles baseTemplate d newFiles with
      | Err err => (None, Some err)
      | Ok main => lookupTemplate main name
      end
  end.

(** The interface method, dispatched on the implementation. *)
Definition LookupTemplate (tm : TemplateManager) (d : FS) (name : string)
  : option Tmpl * option error :=
  match tm with
  | embedTM cachedTemplates => embedTM_LookupTemplate cachedTemplates name
  | fsTM srcDir => fsTM_LookupTemplate srcDir d name
  end.

Definition NewTemplateManagerEmbed (fs : FS) (srcDir : string)
  : option TemplateManager * option error :=
  match ReadDir fs srcDir with
  | Err err => (None, Some err)
  | Ok files =>
      let newFiles := fixFiles files srcDir in
      match ParseFS baseTemplate fs newFiles with
      | Err err =>
          (None, Some (wrapError
             ("error initializing templates from embedded filesystem: " +:+ error_Error err)
             err))
      | Ok ts => (Some (embedTM ts), None)
      end
  end.

Definition NewTemplateManagerFS (srcDir : string) : option TemplateManager * option error :=
  (Some (fsTM srcDir), None).

(** ** The page handler and the capturing writer *)

(** [Template]: which template to render. *)
Record Template : Type := {
  named : string;
  direct : option Tmpl
}.

Definition NamedTemplate (called : string) : option Template :=
  Some {| named := called; direct := None |}.

Definition DirectTemplate (t : option Tmpl) : option Template :=
  Some {| named := ""; direct := t |}.

(** [*http.Request], as far as a handler can depend on it.  The deadline
    [ServeHTTP] attaches to the request context is not represented. *)
Record Request : Type := { URL : string }.

(** What a handler does with the writer it is given. *)
Inductive call : Type :=
| CallWriteHeader (code : Z)
| CallWrite (p : string).

(** One run of [Handler.Serve(&capW, r)]: the calls it makes on the writer,
    in order, and the three values it returns (a nil [*Template] and a nil
    error are [None]). *)
Record Served : Type := {
  calls : list call;
  ret_t : option Template;
  ret_data : Data;
  ret_err : option error
}.

(** [TemplateHandler]. *)
Definition TemplateHandler : Type := Request -> Served.

Record TemplateMiddleware : Type := {
  Templates : TemplateManager;
  Handler : TemplateHandler
}.

Record responseWriterCapturer : Type := { statusCode : Z }.

(** [responseWriterCapturer.WriteHeader]. *)
Definition capturer_WriteHeader (capW : responseWriterCapturer) (code : Z)
  : M responseWriterCapturer :=
  let capW := {| statusCode := code |} in
  WriteHeader ByHandler code;;
  mret capW.

(** [Write] is promoted from the embedded [http.ResponseWriter]: it goes
    straight through and leaves [statusCode] alone. *)
Definition capturer_Write (capW : responseWriterCapturer) (p : string)
  : M responseWriterCapturer :=
  Write ByHandler p;;
  mret capW.

Fixpoint run_calls (capW : responseWriterCapturer) (cs : list call)
  : M responseWriterCapturer :=
  match cs with
  | [] => mret capW
  | CallWriteHeader code :: rest =>
      capW' ← capturer_WriteHeader capW code; run_calls capW' rest
  | CallWrite p :: rest =>
      capW' ← capturer_Write capW p; run_calls capW' rest
  end.

(** ** The error-rendering chain *)

(** [tm.Templates.LookupTemplate(name)] as a step of a request. *)
Definition Templates_LookupTemplate (tm : TemplateMiddleware) (name : string)
  : M (option Tmpl * option error) :=
  emit (ELookup name);;
  d ← get_disk;
  mret (LookupTemplate (Templates tm) d name).

Definition newline : string := String (ascii_of_nat 10) EmptyString.

(** The buffer after the loop over [context]. *)
Fixpoint context_lines (context : list string) : string :=
  match context with
  | [] => EmptyString
  | x :: rest => x +:+ newline +:+ context_lines rest
  end.

Definition writeBasicErrorResponse (er : option ErrorResponse) (context : list string)
  : M unit :=
  let b := context_lines context in
  match er with
  | None => raise NilErrorResponse
  | Some r =>
      let b := b +:+ Error r +:+ newline in
      err ← Write ByFallback b;
      UncheckedError err
  end.

(** [fmt.Sprintf("%d.html", statusCode)]. *)
Definition templateFile_of (statusCode : Z) : string :=
  pretty statusCode +:+ ".html".

Definition handleError (tm : TemplateMiddleware) (err : option error) (context : list string)
  : M bool :=
  match err with
  | None => mret false
  | Some err =>
      '(er, statusCode) ←
        match errors_As err with
        | Some er =>
            WriteHeader ByErrorChain (Status er);;
            mret (Some er, Status er)
        | None =>
            WriteHeader ByErrorChain 500;;
            mret (None, 500)
        end;
      (if (statusCode <? 400)%Z
       then Log Info (error_Error err)
       else Log Warn (error_Error err));;
      let templateFile := templateFile_of statusCode in
      '(templated, err) ← Templates_LookupTemplate tm templateFile;
      match err with
      | Some err =>
          Log Warn ("Did not find template " +:+ templateFile +:+ " " +:+ error_Error err);;
          writeBasicErrorResponse er context;;
          mret true
      | None =>
          err ← Execute ByErrorPage templated (data_of er);
          match err with
          | Some _ => writeBasicErrorResponse er context
          | None => mret tt
          end;;
          mret true
      end
  end.

(** ** ServeHTTP *)

Definition ServeHTTP (tm : TemplateMiddleware) (r : Request) : M unit :=
  let served := Handler tm r in
  capW ← run_calls {| statusCode := 0 |} (calls served);
  let t := ret_t served in
  let data := ret_data served in
  let err := ret_err served in
  stop ← handleError tm err [];
  if (stop : bool) then mret tt
  else if negb (statusCode capW =? 0)%Z then mret tt
  else
    match t with
    | None => raise NilTemplateDescriptor
    | Some t =>
        let render (gt : option Tmpl) : M unit :=
          err ← Execute ByPage gt data;
          handleError tm err [];;
          mret tt in
        let gt := direct t in
        match gt with
        | None =>
            '(gt, err) ← Templates_LookupTemplate tm (named t);
            stop ← handleError tm err [];
            if (stop : bool) then mret tt else render gt
        | Some _ => render gt
        end
    end.

(** ** What the transport makes of the calls on the writer *)

Definition header_codes (es : list effect) : list Z :=
  omap (fun e => match e with EWriteHeader _ code => Some code | _ => None end) es.

(** The status line: the first [WriteHeader] wins, and a [Write] that comes
    before any [WriteHeader] sends 200. *)
Fixpoint response_status (es : list effect) : Z :=
  match es with
  | [] => 200
  | EWriteHeader _ code :: _ => code
  | EWrite _ _ :: _ => 200
  | _ :: rest => response_status rest
  end.

Fixpoint response_body (es : list effect) : string :=
  match es with
  | [] => EmptyString
  | EWrite _ p :: rest => p +:+ response_body rest
  | _ :: rest => response_body rest
  end.

(** The kinds of body output present among the calls. *)
Definition wrote (o : origin) (es : list effect) : bool :=
  existsb (fun e => match e with
                    | EWrite o' _ => bool_decide (o' = o)
                    | _ => false
                    end) es.

(** A world in which nothing has happened yet. *)
Definition fresh (wf : nat -> bool) (d : FS) : World :=
  {| effects := []; wfail := wf; disk := d |}.

(** ** Reading a run *)

(** The call one handler action makes on the underlying writer. *)
Definition call_effect (c : call) : effect :=
  match c with
  | CallWriteHeader code => EWriteHeader ByHandler code
  | CallWrite p => EWrite ByHandler p
  end.

(** [capW.statusCode] once the handler has made the calls [cs], [init]
    being its value before: the code of the last [WriteHeader]. *)
Fixpoint captured (init : Z) (cs : list call) : Z :=
  match cs with
  | [] => init
  | CallWriteHeader code :: rest => captured code rest
  | CallWrite _ :: rest => captured init rest
  end.

(** The status [handleError] settles on for a non-nil error. *)
Definition status_of (err : error) : Z :=
  match errors_As err with
  | Some er => Status er
  | None => 500
  end.

(** The level [handleError] logs the error at. *)
Definition level_of (statusCode : Z) : level :=
  if (statusCode <? 400)%Z then Info else Warn.

(** What [handleError] does before it looks at the result of the lookup. *)
Definition chain_head (err : error) : list effect :=
  [ EWriteHeader ByErrorChain (status_of err);
    ELog (level_of (status_of err)) (error_Error err);
    ELookup (templateFile_of (status_of err)) ].

(** Effects that are error-page output, fallback output or log lines. *)
Definition error_output (e : effect) : bool :=
  match e with
  | EWrite ByErrorPage _ | EWrite ByFallback _ => true
  | EExecute ByErrorPage _ => true
  | ELog _ _ => true
  | _ => false
  end.

(** Effects the middleware causes after the handler has returned. *)
Definition by_middleware (e : effect) : bool :=
  match e with
  | EWriteHeader ByHandler _ | EWrite ByHandler _ => false
  | _ => true
  end.

Definition lookups (es : list effect) : list string :=
  omap (fun e => match e with ELookup name => Some name | _ => None end) es.

Definition executions (es : list effect) : list string :=
  omap (fun e => match e with EExecute _ name => Some name | _ => None end) es.

Definition is_log (e : effect) : bool :=
  match e with ELog _ _ => true | _ => false end.

(** An entry name as a directory listing gives it: one path element. *)
Definition plain_name (x : string) : bool :=
  negb (String.eqb x "") && negb (String.eqb x ".") && negb (String.eqb x "..")
  && negb (existsb (Ascii.eqb slash) (list_ascii_of_string x)).

(** Every template of a set is filed under its own name. *)
Definition well_named (t : TemplateSet) : Prop :=
  forall (k : string) (v : Tmpl), t !! k = Some v -> tname v = k.

(** The codes the writers of [net/http] accept in [WriteHeader]. *)
Definition valid_code (code : Z) : bool := (100 <=? code)%Z && (code <=? 999)%Z.

(** A writer that never refuses a write. *)
Definition healthy (w : World) : Prop := forall n, wfail w n = false.

(** ** Sample managers, handlers and worlds *)

(** A directory tree with nothing in it. *)
Definition no_disk : FS :=
  {| ReadDir := fun _ => Err (errorString "no such directory");
     ReadTemplate := fun _ => Err (errorString "no such file");
     Stat := fun _ => false;
     GlobMeta := fun _ => Ok [] |}.

(** The listing of the sample directory [tpl]: two templates and two
    editor leftovers. *)
Definition tpl_listing : list DirEntry :=
  [ {| Name := "403.html" |}; {| Name := "#index.html#" |};
    {| Name := "index.html" |}; {| Name := "index.html~" |} ].

Definition index_body : Data -> list string * option error :=
  fun _ => (["<p>hello</p>"], None).

Definition forbidden_body : Data -> list string * option error :=
  fun _ => (["<h1>Forbidden</h1>"], None).

Definition about_body : Data -> list string * option error :=
  fun _ => (["<p>about</p>"], None).

(** A tree holding the directory [tpl]. *)
Definition tpl_disk : FS :=
  {| ReadDir := fun dir =>
       if String.eqb dir "tpl" then Ok tpl_listing
       else Err (errorString "no such directory");
     ReadTemplate := fun p =>
       if String.eqb p "tpl/index.html" then Ok index_body
       else if String.eqb p "tpl/403.html" then Ok forbidden_body
       else Err (errorString "no such file");
     Stat := fun p =>
       String.eqb p "tpl/index.html" || String.eqb p "tpl/403.html"
       || String.eqb p "tpl/#index.html#" || String.eqb p "tpl/index.html~";
     GlobMeta := fun _ => Ok [] |}.

(** The same tree after [tpl/about.html] has been created. *)
Definition tpl_disk_later : FS :=
  {| ReadDir := fun dir =>
       if String.eqb dir "tpl" then Ok ({| Name := "about.html" |} :: tpl_listing)
       else Err (errorString "no such directory");
     ReadTemplate := fun p =>
       if String.eqb p "tpl/about.html" then Ok about_body
       else ReadTemplate tpl_disk p;
     Stat := fun p => String.eqb p "tpl/about.html" || Stat tpl_disk p;
     GlobMeta := fun _ => Ok [] |}.

(** A tree whose directory [tpl] holds editor leftovers only. *)
Definition backup_disk : FS :=
  {| ReadDir := fun dir =>
       if String.eqb dir "tpl"
       then Ok [ {| Name := "#index.html#" |}; {| Name := "index.html~" |} ]
       else Err (errorString "no such directory");
     ReadTemplate := fun _ => Err (errorString "no such file");
     Stat := fun p => String.eqb p "tpl/#index.html#" || String.eqb p "tpl/index.html~";
     GlobMeta := fun _ => Ok [] |}.

(** A tree whose [tpl/403.html] does not parse. *)
Definition bad_syntax_disk : FS :=
  {| ReadDir := ReadDir tpl_disk;
     ReadTemplate := fun p =>
       if String.eqb p "tpl/403.html" then Err (errorString "template: unexpected EOF")
       else ReadTemplate tpl_disk p;
     Stat := Stat tpl_disk;
     GlobMeta := GlobMeta tpl_disk |}.

(** The listing of a directory in which one file has a bracket in its
    name. *)
Definition bracket_listing : list DirEntry :=
  [ {| Name := "[id].html" |}; {| Name := "index.html" |} ].

(** A tree holding that directory: both files exist and parse, and the
    pattern [tpl/[id].html], which stands for [tpl/i.html] and
    [tpl/d.html], matches no file. *)
Definition bracket_disk : FS :=
  {| ReadDir := fun dir =>
       if String.eqb dir "tpl" then Ok bracket_listing
       else Err (errorString "no such directory");
     ReadTemplate := fun p =>
       if String.eqb p "tpl/index.html" then Ok index_body
       else if String.eqb p "tpl/[id].html" then Ok about_body
       else Err (errorString "no such file");
     Stat := fun p => String.eqb p "tpl/index.html" || String.eqb p "tpl/[id].html";
     GlobMeta := fun _ => Ok [] |}.

(** The embedded manager built from [tpl_disk]. *)
Definition tpl_embedded : TemplateManager :=
  match NewTemplateManagerEmbed tpl_disk "tpl" with
  | (Some tm, _) => tm
  | (None, _) => embedTM ∅
  end.

(** An embedded manager whose set is empty: no name resolves. *)
Definition no_templates : TemplateManager := embedTM ∅.

(** A template that writes [chunks] and then fails. *)
Definition broken_page (name : string) (chunks : list string) : Tmpl :=
  {| tname := name;
     body := fun _ => (chunks, Some (errorString "template: execution failed")) |}.

(** A template that writes [chunks] and succeeds. *)
Definition static_page (name : string) (chunks : list string) : Tmpl :=
  {| tname := name; body := fun _ => (chunks, None) |}.

(** An embedded manager holding one page. *)
Definition home_templates : TemplateManager :=
  embedTM {[ "home.html" := static_page "home.html" ["<p>hi</p>"] ]}.

(** An embedded manager whose [403.html] writes a heading and then fails. *)
Definition broken_403 : TemplateManager :=
  embedTM {[ "403.html" := broken_page "403.html" ["<h1>Forbidden</h1>"] ]}.

(** A handler that makes the calls [cs] and returns the error [e]. *)
Definition failing_handler (cs : list call) (e : error) : TemplateHandler :=
  fun _ => {| calls := cs; ret_t := None; ret_data := DataNil; ret_err := Some e |}.

(** A handler that makes the calls [cs] and returns the descriptor [t]
    with a nil error. *)
Definition page_handler (cs : list call) (t : option Template) : TemplateHandler :=
  fun _ => {| calls := cs; ret_t := t; ret_data := DataNil; ret_err := None |}.

Definition root_request : Request := {| URL := "/" |}.

(** A fresh world with a writer that accepts every write. *)
Definition quiet (d : FS) : World := fresh (fun _ => false) d.

(** * Properties *)

Local Close Scope string_scope.

(** Splits a conjunction into its parts, leaving implications alone. *)
Ltac conjuncts := repeat match goal with |- _ /\ _ => split end.

(** ** The monad *)

Lemma record_nil (w : World) : record w [] = w.
Proof. destruct w; unfold record; simpl. by rewrite app_nil_r. Qed.

Lemma record_record (w : World) (a b : list effect) :
  record (record w a) b = record w (a ++ b).
Proof. unfold record; simpl. by rewrite <- app_assoc. Qed.

Lemma bind_Return {A B : Type} (m : M A) (f : A -> M B) (w w' : World) (a : A) :
  m w = (Return a, w') -> (m ≫= f) w = f a w'.
Proof. intros H. unfold mbind, M_bind. by rewrite H. Qed.

Lemma bind_Panic {A B : Type} (m : M A) (f : A -> M B) (w w' : World) (p : panic) :
  m w = (Panic p, w') -> (m ≫= f) w = (Panic p, w').
Proof. intros H. unfold mbind, M_bind. by rewrite H. Qed.

Lemma disk_record (w : World) (es : list effect) : disk (record w es) = disk w.
Proof. reflexivity. Qed.

Lemma wfail_record (w : World) (es : list effect) : wfail (record w es) = wfail w.
Proof. reflexivity. Qed.

Lemma effects_record (w : World) (es : list effect) :
  effects (record w es) = (effects w ++ es)%list.
Proof. reflexivity. Qed.

Lemma healthy_record (w : World) (es : list effect) : healthy w -> healthy (record w es).
Proof. intros H n. apply H. Qed.

(** ** The handler's calls *)

Lemma run_calls_spec (cs : list call) (capW : responseWriterCapturer) (w : World) :
  run_calls capW cs w =
    (Return {| statusCode := captured (statusCode capW) cs |},
     record w (map call_effect cs)).
Proof.
  revert capW w. induction cs as [|c cs IH]; intros capW w.
  - simpl. destruct capW. by rewrite record_nil.
  - destruct c as [code|p]; simpl.
    + erewrite bind_Return by reflexivity.
      rewrite IH, record_record. reflexivity.
    + erewrite bind_Return by reflexivity.
      rewrite IH, record_record. reflexivity.
Qed.

(** ** Writing and executing *)

Lemma write_chunks_spec (o : origin) (cs : list string) (w : World) :
  exists (n : nat) (r : option error),
    write_chunks o cs w = (Return r, record w (map (EWrite o) (take n cs)))
    /\ (n <= length cs)%nat
    /\ (r = None -> n = length cs)
    /\ (r = None \/ r = Some errWrite)
    /\ (healthy w -> n = length cs /\ r = None).
Proof.
  revert w. induction cs as [|c cs IH]; intros w.
  - exists 0%nat, None. simpl. rewrite record_nil. auto 6.
  - simpl. unfold mbind, M_bind, Write.
    destruct (wfail w (writes_so_far w)) eqn:Hf.
    + exists 1%nat, (Some errWrite). simpl.
      conjuncts; [reflexivity | lia | discriminate | auto | ].
      intros H; rewrite H in Hf; discriminate.
    + destruct (IH (record w [EWrite o c])) as (n & r & E & Hn & Hr & Hw & Hh).
      exists (S n), r. rewrite E, record_record. simpl.
      conjuncts; [reflexivity | lia | intros ->; f_equal; auto | exact Hw | ].
      intros H; destruct (Hh (healthy_record w _ H)) as [-> ->]; auto.
Qed.

Lemma write_chunks_healthy (o : origin) (cs : list string) (w : World) :
  healthy w ->
  write_chunks o cs w = (Return None, record w (map (EWrite o) cs)).
Proof.
  revert w. induction cs as [|c cs IH]; intros w H.
  - simpl. by rewrite record_nil.
  - simpl. unfold mbind, M_bind, Write. rewrite H.
    rewrite IH by (by apply healthy_record).
    by rewrite record_record.
Qed.

Lemma Execute_spec (o : origin) (t : Tmpl) (data : Data) (w : World) :
  exists (n : nat) (r : option error),
    Execute o (Some t) data w =
      (Return r, record w (EExecute o (tname t) :: map (EWrite o) (take n (body t data).1)))
    /\ (n <= length (body t data).1)%nat
    /\ (r = None -> n = length (body t data).1 /\ (body t data).2 = None)
    /\ ((body t data).2 = None -> r = None \/ r = Some errWrite)
    /\ (healthy w -> n = length (body t data).1 /\ r = (body t data).2).
Proof.
  unfold Execute. destruct (body t data) as [cs e] eqn:Eb. simpl.
  destruct (write_chunks_spec o cs (record w [EExecute o (tname t)]))
    as (n & r & E & Hn & Hr & Hw & Hh).
  unfold mbind, M_bind, emit. rewrite E, record_record. simpl.
  destruct r as [we|].
  - exists n, (Some we).
    conjuncts; [reflexivity | exact Hn | discriminate | | ].
    + intros _. destruct Hw as [Hw|Hw]; [discriminate | auto].
    + intros H. by destruct (Hh (healthy_record w _ H)).
  - exists n, e.
    conjuncts; [reflexivity | exact Hn | auto | intros ->; auto | auto].
Qed.

Lemma Execute_healthy (o : origin) (t : Tmpl) (data : Data) (w : World) :
  healthy w ->
  Execute o (Some t) data w =
    (Return (body t data).2,
     record w (EExecute o (tname t) :: map (EWrite o) (body t data).1)).
Proof.
  intros H. unfold Execute. destruct (body t data) as [cs e]. simpl.
  unfold mbind, M_bind, emit.
  rewrite write_chunks_healthy by (by apply healthy_record).
  by rewrite record_record.
Qed.

(** ** The fallback *)

Lemma writeBasicErrorResponse_Some (r : ErrorResponse) (context : list string) (w : World) :
  writeBasicErrorResponse (Some r) context w =
    (Return tt,
     record w (EWrite ByFallback (context_lines context +:+ Error r +:+ newline)
               :: if wfail w (writes_so_far w)
                  then [ELog Debug ("unchecked error " +:+ error_Error errWrite)]
                  else [])).
Proof.
  unfold writeBasicErrorResponse, mbind, M_bind, Write.
  destruct (wfail w (writes_so_far w)); simpl.
  - unfold Log, emit. by rewrite record_record.
  - reflexivity.
Qed.

Lemma writeBasicErrorResponse_None (context : list string) (w : World) :
  writeBasicErrorResponse None context w = (Panic NilErrorResponse, w).
Proof. reflexivity. Qed.

(** ** Lookups *)

Lemma lookupTemplate_cases (main : TemplateSet) (name : string) :
  (exists t, main !! name = Some t /\ lookupTemplate main name = (Some t, None))
  \/ (main !! name = None
      /\ lookupTemplate main name = (None, Some (errorString ("cannot find template " +:+ name)))).
Proof.
  unfold lookupTemplate. destruct (main !! name) as [t|] eqn:E; [left; eauto | right; auto].
Qed.

Lemma LookupTemplate_cases (tm : TemplateManager) (d : FS) (name : string) :
  (exists t, LookupTemplate tm d name = (Some t, None))
  \/ (exists e, LookupTemplate tm d name = (None, Some e)).
Proof.
  assert (H : forall main,
    (exists t, lookupTemplate main name = (Some t, None))
    \/ (exists e, lookupTemplate main name = (None, Some e))).
  { intros main. destruct (lookupTemplate_cases main name) as [(t & _ & E)|[_ E]];
      rewrite E; eauto. }
  destruct tm as [ts|srcDir]; simpl.
  - apply H.
  - unfold fsTM_LookupTemplate.
    destruct (ReadDir d srcDir) as [files|e]; [|eauto].
    destruct (ParseFiles _ _ _) as [main|e]; [apply H | eauto].
Qed.

(** ** handleError *)

Lemma handleError_nil (tm : TemplateMiddleware) (context : list string) (w : World) :
  handleError tm None context w = (Return false, w).
Proof. reflexivity. Qed.

(** The chain up to the point where the result of the lookup is used. *)
Lemma handleError_eq (tm : TemplateMiddleware) (e : error) (context : list string) (w : World) :
  handleError tm (Some e) context w =
    match LookupTemplate (Templates tm) (disk w) (templateFile_of (status_of e)) with
    | (_, Some le) =>
        (writeBasicErrorResponse (errors_As e) context ≫= fun _ => mret true)
          (record w (chain_head e ++
             [ELog Warn ("Did not find template " +:+ templateFile_of (status_of e)
                         +:+ " " +:+ error_Error le)]))
    | (templated, None) =>
        (Execute ByErrorPage templated (data_of (errors_As e)) ≫= fun err =>
           match err with
           | Some _ => writeBasicErrorResponse (errors_As e) context
           | None => mret tt
           end ≫= fun _ => mret true)
          (record w (chain_head e))
    end.
Proof.
  unfold handleError, chain_head, status_of, level_of, Templates_LookupTemplate.
  destruct (errors_As e) as [er|];
    cbv [mbind M_bind WriteHeader Log emit get_disk mret M_ret];
    try destruct (Status er <? 400)%Z;
    try change (500 <? 400)%Z with false;
    cbv beta iota;
    rewrite ?record_record, ?disk_record; cbn [app];
    destruct (LookupTemplate _ _ _) as [templated [le|]];
    rewrite ?record_record; cbn [app]; reflexivity.
Qed.

Lemma handleError_shape (tm : TemplateMiddleware) (e : error) (context : list string) (w : World) :
  exists (o : outcome bool) (es : list effect),
    handleError tm (Some e) context w = (o, record w (chain_head e ++ es))
    /\ forallb error_output es = true
    /\ (o = Return true \/ (o = Panic NilErrorResponse /\ errors_As e = None)).
Proof.
  rewrite handleError_eq.
  destruct (LookupTemplate_cases (Templates tm) (disk w) (templateFile_of (status_of e)))
    as [[t E]|[le E]]; rewrite E.
  - destruct (Execute_spec ByErrorPage t (data_of (errors_As e)) (record w (chain_head e)))
      as (n & r & EX & _ & _ & _).
    erewrite bind_Return by exact EX.
    assert (Hout : forallb error_output
              (EExecute ByErrorPage (tname t)
               :: map (EWrite ByErrorPage) (take n (body t (data_of (errors_As e))).1)) = true).
    { simpl. apply forallb_forall. intros x Hx. apply in_map_iff in Hx.
      destruct Hx as (c & <- & _). reflexivity. }
    destruct r as [re|].
    + destruct (errors_As e) as [er|] eqn:Ea.
      * erewrite bind_Return by apply writeBasicErrorResponse_Some.
        rewrite !record_record.
        eexists _, _. split; [reflexivity|]. split; [|by left].
        rewrite forallb_app, Hout. simpl. by destruct (wfail _ _).
      * erewrite bind_Panic by apply writeBasicErrorResponse_None.
        rewrite !record_record.
        eexists _, _. split; [reflexivity|]. split; [exact Hout | by right].
    + erewrite bind_Return by reflexivity.
      rewrite !record_record.
      eexists _, _. split; [reflexivity|]. split; [exact Hout | by left].
  - destruct (errors_As e) as [er|] eqn:Ea.
    + erewrite bind_Return by apply writeBasicErrorResponse_Some.
      rewrite !record_record, <- app_assoc.
      eexists _, _. split; [reflexivity|]. split; [|by left].
      simpl. by destruct (wfail _ _).
    + erewrite bind_Panic by apply writeBasicErrorResponse_None.
      eexists _, _. split; [reflexivity|]. split; [reflexivity | by right].
Qed.

(** ** Strings *)

Lemma string_app_cons (x : ascii) (a b : string) :
  String x a +:+ b = String x (a +:+ b).
Proof. reflexivity. Qed.

Lemma string_app_nil_l (b : string) : EmptyString +:+ b = b.
Proof. reflexivity. Qed.

Lemma string_app_assoc (a b c : string) : (a +:+ b) +:+ c = a +:+ (b +:+ c).
Proof.
  induction a as [|x a IH]; [reflexivity|].
  rewrite !string_app_cons. f_equal. exact IH.
Qed.

Lemma string_app_nil_r (a : string) : a +:+ EmptyString = a.
Proof.
  induction a as [|x a IH]; [reflexivity|].
  rewrite string_app_cons. f_equal. exact IH.
Qed.

(** ** Reading effect lists *)

Lemma header_codes_app (a b : list effect) :
  header_codes (a ++ b) = (header_codes a ++ header_codes b)%list.
Proof. apply omap_app. Qed.

Lemma wrote_app (o : origin) (a b : list effect) :
  wrote o (a ++ b) = wrote o a || wrote o b.
Proof. apply existsb_app. Qed.

Lemma response_body_app (a b : list effect) :
  response_body (a ++ b) = response_body a +:+ response_body b.
Proof.
  induction a as [|x a IH]; [reflexivity|].
  destruct x; simpl; rewrite ?IH; try reflexivity.
  symmetry. apply string_app_assoc.
Qed.

Lemma response_body_writes (o : origin) (cs : list string) (rest : list effect) :
  response_body (map (EWrite o) cs ++ rest)
  = fold_right String.append EmptyString cs +:+ response_body rest.
Proof.
  induction cs as [|c cs IH]; [reflexivity|].
  simpl. rewrite IH. symmetry. apply string_app_assoc.
Qed.

Lemma error_output_facts (es : list effect) :
  forallb error_output es = true ->
  header_codes es = [] /\ lookups es = [] /\ forallb by_middleware es = true
  /\ wrote ByPage es = false /\ wrote ByHandler es = false.
Proof.
  induction es as [|x es IH]; [by repeat split|].
  simpl. intros H. apply andb_prop in H. destruct H as [Hx Hes].
  destruct (IH Hes) as (H1 & H2 & H3 & H4 & H5).
  destruct x as [o c|o p|n|o n|lv m]; try discriminate Hx;
    try (destruct o; try discriminate Hx); simpl; rewrite ?H1, ?H2, ?H3, ?H4, ?H5; by repeat split.
Qed.

Lemma page_output_facts (name : string) (cs : list string) :
  let es := EExecute ByPage name :: map (EWrite ByPage) cs in
  header_codes es = [] /\ lookups es = [] /\ forallb by_middleware es = true
  /\ wrote ByHandler es = false /\ response_body es = fold_right String.append EmptyString cs.
Proof.
  simpl. induction cs as [|c cs IH]; [by repeat split|].
  simpl. destruct IH as (H1 & H2 & H3 & H4 & H5).
  unfold header_codes, lookups in *. simpl. rewrite H1, H2, H3, H5.
  repeat split. exact H4.
Qed.

Lemma handler_effects_facts (cs : list call) :
  lookups (map call_effect cs) = [] /\ executions (map call_effect cs) = []
  /\ forallb (fun e => negb (by_middleware e)) (map call_effect cs) = true.
Proof.
  induction cs as [|c cs (H1 & H2 & H3)]; [by repeat split|].
  destruct c; simpl; unfold lookups, executions in *; simpl; by rewrite ?H1, ?H2, ?H3.
Qed.

Lemma chain_head_facts (e : error) :
  header_codes (chain_head e) = [status_of e]
  /\ forallb by_middleware (chain_head e) = true
  /\ wrote ByPage (chain_head e) = false /\ wrote ByHandler (chain_head e) = false
  /\ response_body (chain_head e) = EmptyString
  /\ response_status (chain_head e) = status_of e.
Proof. by repeat split. Qed.

(** ** ServeHTTP, case by case *)

(** The world in which the handler has returned. *)
Lemma ServeHTTP_eq (tm : TemplateMiddleware) (r : Request) (w : World) :
  ServeHTTP tm r w =
    (handleError tm (ret_err (Handler tm r)) [] ≫= fun stop : bool =>
       if stop then mret tt
       else if negb (captured 0 (calls (Handler tm r)) =? 0)%Z then mret tt
       else
         match ret_t (Handler tm r) with
         | None => raise NilTemplateDescriptor
         | Some t =>
             match direct t with
             | None =>
                 Templates_LookupTemplate tm (named t) ≫= fun '(gt, err) =>
                 handleError tm err [] ≫= fun stop : bool =>
                 if stop then mret tt
                 else Execute ByPage gt (ret_data (Handler tm r)) ≫= fun err =>
                      handleError tm err [] ≫= fun _ => mret tt
             | Some _ =>
                 Execute ByPage (direct t) (ret_data (Handler tm r)) ≫= fun err =>
                 handleError tm err [] ≫= fun _ => mret tt
             end
         end)
      (record w (map call_effect (calls (Handler tm r)))).
Proof.
  unfold ServeHTTP. erewrite bind_Return by apply run_calls_spec. reflexivity.
Qed.

Lemma ServeHTTP_error (tm : TemplateMiddleware) (r : Request) (w : World) (e : error) :
  ret_err (Handler tm r) = Some e ->
  exists (o : outcome unit) (es : list effect),
    ServeHTTP tm r w =
      (o, record w (map call_effect (calls (Handler tm r)) ++ chain_head e ++ es))
    /\ forallb error_output es = true
    /\ (o = Return tt \/ (o = Panic NilErrorResponse /\ errors_As e = None)).
Proof.
  intros He. rewrite ServeHTTP_eq, He.
  destruct (handleError_shape tm e [] (record w (map call_effect (calls (Handler tm r)))))
    as (o & es & E & Hout & Ho).
  rewrite record_record in E.
  destruct Ho as [->|[-> Ha]].
  - erewrite bind_Return by exact E. exists (Return tt), es. auto.
  - erewrite bind_Panic by exact E. exists (Panic NilErrorResponse), es. auto.
Qed.

Lemma ServeHTTP_taken_over (tm : TemplateMiddleware) (r : Request) (w : World) :
  ret_err (Handler tm r) = None ->
  captured 0 (calls (Handler tm r)) <> 0 ->
  ServeHTTP tm r w = (Return tt, record w (map call_effect (calls (Handler tm r)))).
Proof.
  intros He Hc. rewrite ServeHTTP_eq, He.
  erewrite bind_Return by apply handleError_nil.
  destruct (Z.eqb_spec (captured 0 (calls (Handler tm r))) 0) as [E|_]; [by destruct Hc|].
  reflexivity.
Qed.

Lemma ServeHTTP_nil_descriptor (tm : TemplateMiddleware) (r : Request) (w : World) :
  ret_err (Handler tm r) = None ->
  captured 0 (calls (Handler tm r)) = 0 ->
  ret_t (Handler tm r) = None ->
  ServeHTTP tm r w =
    (Panic NilTemplateDescriptor, record w (map call_effect (calls (Handler tm r)))).
Proof.
  intros He Hc Ht. rewrite ServeHTTP_eq, He, Hc, Ht.
  erewrite bind_Return by apply handleError_nil. reflexivity.
Qed.

(** Executing the page template and routing its error. *)
Lemma render_shape (tm : TemplateMiddleware) (gt : Tmpl) (data : Data) (w : World) :
  exists (o : outcome unit) (n : nat) (es : list effect),
    (Execute ByPage (Some gt) data ≫= fun err =>
     handleError tm err [] ≫= fun _ => mret tt) w =
      (o, record w (EExecute ByPage (tname gt)
                    :: map (EWrite ByPage) (take n (body gt data).1) ++ es))
    /\ (n <= length (body gt data).1)%nat
    /\ forallb by_middleware es = true
    /\ (length (header_codes es) <= 1)%nat
    /\ (o = Return tt \/ o = Panic NilErrorResponse)
    /\ (es = [] -> o = Return tt /\ n = length (body gt data).1 /\ (body gt data).2 = None).
Proof.
  destruct (Execute_spec ByPage gt data w) as (n & re & EX & Hn & Hnone & _).
  erewrite bind_Return by exact EX.
  destruct re as [e|].
  - destruct (handleError_shape tm e []
                (record w (EExecute ByPage (tname gt)
                           :: map (EWrite ByPage) (take n (body gt data).1))))
      as (o & es & E & Hout & Ho).
    rewrite record_record in E.
    destruct (error_output_facts es Hout) as (H1 & H2 & H3 & _).
    exists (match o with Return _ => Return tt | Panic p => Panic p end), n, (chain_head e ++ es).
    split.
    { destruct Ho as [->|[-> _]];
        [erewrite bind_Return by exact E | erewrite bind_Panic by exact E]; reflexivity. }
    split; [exact Hn|]. split.
    { rewrite forallb_app, H3. reflexivity. }
    split.
    { rewrite header_codes_app, H1. simpl. lia. }
    split.
    { destruct Ho as [->|[-> _]]; auto. }
    discriminate.
  - erewrite bind_Return by apply handleError_nil.
    exists (Return tt), n, []. rewrite app_nil_r.
    destruct (Hnone eq_refl) as [Hlen Hb].
    repeat split; auto.
Qed.

Lemma Templates_LookupTemplate_eq (tm : TemplateMiddleware) (name : string) (w : World) :
  Templates_LookupTemplate tm name w =
    (Return (LookupTemplate (Templates tm) (disk w) name), record w [ELookup name]).
Proof. reflexivity. Qed.

Lemma ServeHTTP_render (tm : TemplateMiddleware) (r : Request) (w : World) (t : Template) :
  ret_err (Handler tm r) = None ->
  captured 0 (calls (Handler tm r)) = 0 ->
  ret_t (Handler tm r) = Some t ->
  exists (o : outcome unit) (es : list effect),
    ServeHTTP tm r w = (o, record w (map call_effect (calls (Handler tm r)) ++ es))
    /\ forallb by_middleware es = true
    /\ (length (header_codes es) <= 1)%nat
    /\ (o = Return tt \/ o = Panic NilErrorResponse).
Proof.
  intros He Hc Ht. rewrite ServeHTTP_eq, He, Hc, Ht.
  erewrite bind_Return by apply handleError_nil.
  change (negb (0 =? 0)) with false. cbv iota.
  set (w0 := record w (map call_effect (calls (Handler tm r)))).
  assert (Hrender : forall gt es0,
    forallb by_middleware es0 = true -> header_codes es0 = [] ->
    exists o es,
      (Execute ByPage (Some gt) (ret_data (Handler tm r)) ≫= fun err =>
       handleError tm err [] ≫= fun _ => mret tt) (record w0 es0)
        = (o, record w (map call_effect (calls (Handler tm r)) ++ es))
      /\ forallb by_middleware es = true
      /\ (length (header_codes es) <= 1)%nat
      /\ (o = Return tt \/ o = Panic NilErrorResponse)).
  { intros gt es0 Hmw Hhd.
    destruct (render_shape tm gt (ret_data (Handler tm r)) (record w0 es0))
      as (o & n & es & E & _ & Hes & Hlen & Ho & _).
    destruct (page_output_facts (tname gt) (take n (body gt (ret_data (Handler tm r))).1))
      as (P1 & _ & P3 & _).
    exists o, (es0 ++ (EExecute ByPage (tname gt)
                  :: map (EWrite ByPage) (take n (body gt (ret_data (Handler tm r))).1)) ++ es).
    split.
    { rewrite E. unfold w0. rewrite !record_record. reflexivity. }
    split.
    { rewrite !forallb_app, Hmw, Hes, P3. reflexivity. }
    split; [|exact Ho].
    rewrite !header_codes_app, Hhd, P1. exact Hlen. }
  destruct (direct t) as [gt|] eqn:Hd.
  - destruct (Hrender gt [] eq_refl eq_refl) as (o & es & E & H).
    rewrite record_nil in E. exists o, es. split; [exact E | exact H].
  - erewrite bind_Return by apply Templates_LookupTemplate_eq.
    destruct (LookupTemplate_cases (Templates tm) (disk w0) (named t)) as [[gt E]|[e E]];
      rewrite E.
    + erewrite bind_Return by apply handleError_nil.
      destruct (Hrender gt [ELookup (named t)] eq_refl eq_refl) as (o & es & E' & H).
      exists o, es. split; [exact E' | exact H].
    + destruct (handleError_shape tm e [] (record w0 [ELookup (named t)]))
        as (o & es & E' & Hout & Ho).
      destruct (error_output_facts es Hout) as (H1 & _ & H3 & _).
      exists (match o with Return _ => Return tt | Panic p => Panic p end),
             (ELookup (named t) :: chain_head e ++ es).
      split.
      { unfold w0 in *. rewrite !record_record in E'. rewrite !record_record.
        rewrite <- app_assoc in E'.
        destruct Ho as [->|[-> _]];
          [erewrite bind_Return by exact E' | erewrite bind_Panic by exact E'];
          reflexivity. }
      split.
      { simpl. exact H3. }
      split.
      { change (length (status_of e :: header_codes es) <= 1)%nat.
        rewrite H1. simpl. lia. }
      destruct Ho as [->|[-> _]]; auto.
Qed.

(** Every run of [ServeHTTP]: the handler's calls, then what the middleware
    adds, which holds at most one [WriteHeader]. *)
Lemma ServeHTTP_shape (tm : TemplateMiddleware) (r : Request) (w : World) :
  exists (o : outcome unit) (es : list effect),
    ServeHTTP tm r w = (o, record w (map call_effect (calls (Handler tm r)) ++ es))
    /\ forallb by_middleware es = true
    /\ (length (header_codes es) <= 1)%nat
    /\ (o = Return tt \/ o = Panic NilErrorResponse
        \/ (o = Panic NilTemplateDescriptor
            /\ ret_t (Handler tm r) = None /\ ret_err (Handler tm r) = None
            /\ captured 0 (calls (Handler tm r)) = 0)).
Proof.
  destruct (ret_err (Handler tm r)) as [e|] eqn:He.
  - destruct (ServeHTTP_error tm r w e He) as (o & es & E & Hout & Ho).
    destruct (error_output_facts es Hout) as (H1 & _ & H3 & _).
    exists o, (chain_head e ++ es). split; [exact E|].
    split; [by rewrite forallb_app, H3|].
    split; [rewrite header_codes_app, H1; simpl; lia|].
    destruct Ho as [->|[-> _]]; auto.
  - destruct (Z.eq_dec (captured 0 (calls (Handler tm r))) 0) as [Hc|Hc].
    + destruct (ret_t (Handler tm r)) as [t|] eqn:Ht.
      * destruct (ServeHTTP_render tm r w t He Hc Ht) as (o & es & E & H1 & H2 & Ho).
        exists o, es. repeat split; auto. destruct Ho; auto.
      * exists (Panic NilTemplateDescriptor), [].
        rewrite app_nil_r, (ServeHTTP_nil_descriptor tm r w He Hc Ht).
        repeat split; auto. right; right; auto.
    + exists (Return tt), [].
      rewrite app_nil_r, (ServeHTTP_taken_over tm r w He Hc).
      repeat split; auto.
Qed.

(** ** The error-rendering chain *)

Lemma templateFile_of_500 : templateFile_of 500 = "500.html".
Proof. vm_compute. reflexivity. Qed.


Lemma status_of_plain (e : error) : errors_As e = None -> status_of e = 500.
Proof. unfold status_of. by intros ->. Qed.

Lemma status_of_As (e : error) (er : ErrorResponse) :
  errors_As e = Some er -> status_of e = Status er.
Proof. unfold status_of. by intros ->. Qed.

Lemma chain_head_plain (e : error) :
  errors_As e = None ->
  chain_head e =
    [EWriteHeader ByErrorChain 500; ELog Warn (error_Error e); ELookup "500.html"].
Proof.
  intros H. unfold chain_head. rewrite (status_of_plain e H), templateFile_of_500.
  reflexivity.
Qed.

(** C1 (a defect of the code).  For an error [e] whose chain holds no
    [ErrorResponse], [handleError] writes status 500, but the fallback never
    completes: [er] is still the nil interface when
    [writeBasicErrorResponse] calls [er.Error()], so the request panics and
    no fallback text is written.  This happens when [500.html] does not
    resolve, and also when it resolves and its execution returns an error. *)
Theorem handleError_plain_error_panics
    (tm : TemplateMiddleware) (e : error) (context : list string) (w : World) :
  errors_As e = None ->
  status_of e = 500
  /\ (forall le : error,
        LookupTemplate (Templates tm) (disk w) "500.html" = (None, Some le) ->
        handleError tm (Some e) context w =
          (Panic NilErrorResponse,
           record w [EWriteHeader ByErrorChain 500; ELog Warn (error_Error e);
                     ELookup "500.html";
                     ELog Warn ("Did not find template 500.html " +:+ error_Error le)]))
  /\ (forall (t : Tmpl) (re : error),
        LookupTemplate (Templates tm) (disk w) "500.html" = (Some t, None) ->
        (body t DataNil).2 = Some re ->
        exists n : nat,
          (n <= length (body t DataNil).1)%nat
          /\ handleError tm (Some e) context w =
               (Panic NilErrorResponse,
                record w ([EWriteHeader ByErrorChain 500; ELog Warn (error_Error e);
                           ELookup "500.html"; EExecute ByErrorPage (tname t)]
                          ++ map (EWrite ByErrorPage) (take n (body t DataNil).1)))).
Proof.
  intros Ha. split; [by apply status_of_plain|]. split.
  - intros le Hl. rewrite handleError_eq, (status_of_plain e Ha), templateFile_of_500, Hl.
    rewrite Ha. erewrite bind_Panic by apply writeBasicErrorResponse_None.
    rewrite (chain_head_plain e Ha). reflexivity.
  - intros t re Hl Hb.
    rewrite handleError_eq, (status_of_plain e Ha), templateFile_of_500, Hl, Ha.
    destruct (Execute_spec ByErrorPage t DataNil (record w (chain_head e)))
      as (n & r & EX & Hn & Hnone & _).
    exists n. split; [exact Hn|].
    simpl data_of. erewrite bind_Return by exact EX.
    destruct r as [x|].
    + erewrite bind_Panic by apply writeBasicErrorResponse_None.
      rewrite record_record, (chain_head_plain e Ha). reflexivity.
    + destruct (Hnone eq_refl) as [_ Hb']. rewrite Hb' in Hb. discriminate.
Qed.

Lemma handleError_plain_error_panics_sample :
  handleError {| Templates := no_templates; Handler := failing_handler [] (errorString "boom") |}
              (Some (errorString "boom")) [] (quiet no_disk)
  = (Panic NilErrorResponse,
     record (quiet no_disk)
       [EWriteHeader ByErrorChain 500; ELog Warn "boom"; ELookup "500.html";
        ELog Warn "Did not find template 500.html cannot find template 500.html"]).
Proof.
  exact (proj1 (proj2 (handleError_plain_error_panics
           {| Templates := no_templates; Handler := failing_handler [] (errorString "boom") |}
           (errorString "boom") [] (quiet no_disk) eq_refl))
         (errorString "cannot find template 500.html") eq_refl).
Defined.

Lemma log_facts (log : list effect) :
  forallb is_log log = true ->
  forallb error_output log = true /\ response_body log = EmptyString
  /\ executions log = [].
Proof.
  induction log as [|x log IH]; [by repeat split|].
  simpl. intros H. apply andb_prop in H. destruct H as [Hx Hl].
  destruct (IH Hl) as (H1 & H2 & H3).
  destruct x; try discriminate Hx. simpl. unfold executions in *. simpl.
  by rewrite H1, H2, H3.
Qed.

(** The chain for an error that holds an [ErrorResponse], when the lookup of
    its error template fails: the fallback text is written. *)
Lemma handleError_fallback (tm : TemplateMiddleware) (e : error) (er : ErrorResponse)
    (context : list string) (w : World) (t : option Tmpl) (le : error) :
  errors_As e = Some er ->
  LookupTemplate (Templates tm) (disk w) (templateFile_of (status_of e)) = (t, Some le) ->
  exists log : list effect,
    handleError tm (Some e) context w =
      (Return true,
       record w (chain_head e ++
         [ELog Warn ("Did not find template " +:+ templateFile_of (status_of e)
                     +:+ " " +:+ error_Error le);
          EWrite ByFallback (context_lines context +:+ Error er +:+ newline)] ++ log))
    /\ forallb is_log log = true.
Proof.
  intros Ha Hl. rewrite handleError_eq, Hl, Ha.
  erewrite bind_Return by apply writeBasicErrorResponse_Some.
  rewrite record_record, <- app_assoc.
  eexists. split; [reflexivity|]. by destruct (wfail _ _).
Qed.



(** C7.  For every non-nil error, the first thing [handleError] does is
    the [WriteHeader] call with the status of the error.  The lookup of the
    status template, the execution of that template and the fallback all
    come after it, and none of them calls [WriteHeader] again: the status
    the transport reports is fixed before the body is chosen. *)
Theorem handleError_status_before_body
    (tm : TemplateMiddleware) (e : error) (context : list string) (w : World) :
  exists (o : outcome bool) (es : list effect),
    handleError tm (Some e) context w =
      (o, record w (EWriteHeader ByErrorChain (status_of e) :: es))
    /\ header_codes es = []
    /\ lookups es = [templateFile_of (status_of e)]
    /\ response_status (EWriteHeader ByErrorChain (status_of e) :: es) = status_of e
    /\ (forall (o' : origin) (p : string),
          In (EWrite o' p) es -> o' = ByErrorPage \/ o' = ByFallback).
Proof.
  destruct (handleError_shape tm e context w) as (o & es & E & Hout & _).
  destruct (error_output_facts es Hout) as (H1 & H2 & _).
  exists o, (ELog (level_of (status_of e)) (error_Error e)
             :: ELookup (templateFile_of (status_of e)) :: es).
  conjuncts.
  - exact E.
  - exact H1.
  - change (templateFile_of (status_of e) :: lookups es = [templateFile_of (status_of e)]).
    by rewrite H2.
  - reflexivity.
  - intros o' p [Hin|[Hin|Hin]]; try discriminate Hin.
    rewrite forallb_forall in Hout. specialize (Hout _ Hin).
    destruct o'; try discriminate Hout; auto.
Qed.

(** The chain when the status template resolves and its execution returns
    an error: the chunks that reached the writer stay, and the fallback
    runs next. *)
Lemma handleError_page_fails (tm : TemplateMiddleware) (e : error) (context : list string)
    (w : World) (t : Tmpl) (re : error) :
  LookupTemplate (Templates tm) (disk w) (templateFile_of (status_of e)) = (Some t, None) ->
  (body t (data_of (errors_As e))).2 = Some re ->
  exists n : nat,
    (n <= length (body t (data_of (errors_As e))).1)%nat
    /\ (healthy w -> n = length (body t (data_of (errors_As e))).1)
    /\ handleError tm (Some e) context w =
         (writeBasicErrorResponse (errors_As e) context ≫= fun _ => mret true)
           (record w (chain_head e ++ EExecute ByErrorPage (tname t)
                      :: map (EWrite ByErrorPage)
                           (take n (body t (data_of (errors_As e))).1))).
Proof.
  intros Hl Hb. rewrite handleError_eq, Hl.
  destruct (Execute_spec ByErrorPage t (data_of (errors_As e)) (record w (chain_head e)))
    as (n & r & EX & Hn & Hnone & _ & Hh).
  exists n. conjuncts; [exact Hn | | ].
  - intros H. by destruct (Hh (healthy_record w _ H)).
  - erewrite bind_Return by exact EX. rewrite record_record.
    destruct r as [x|]; [reflexivity|].
    destruct (Hnone eq_refl) as [_ Hb']. rewrite Hb' in Hb. discriminate.
Qed.

(** C10 (shares the defect of C1).  The status template resolves to [t]
    and its execution ends with an error after [n] chunks have been
    written.  When the error holds an [ErrorResponse], the chunks stay in
    the body and the fallback text is written right after them.  When it
    holds none (a plain error, status 500), the chunks stay too, but the
    fallback panics on the nil [er] and nothing is appended. *)
Theorem handleError_partial_page_then_fallback
    (tm : TemplateMiddleware) (e : error) (context : list string) (w : World)
    (t : Tmpl) (re : error) :
  LookupTemplate (Templates tm) (disk w) (templateFile_of (status_of e)) = (Some t, None) ->
  (body t (data_of (errors_As e))).2 = Some re ->
  exists n : nat,
    let partial := EExecute ByErrorPage (tname t)
                   :: map (EWrite ByErrorPage) (take n (body t (data_of (errors_As e))).1) in
    (n <= length (body t (data_of (errors_As e))).1)%nat
    /\ (healthy w -> n = length (body t (data_of (errors_As e))).1)
    /\ (forall er : ErrorResponse, errors_As e = Some er ->
          exists log : list effect,
            forallb is_log log = true
            /\ handleError tm (Some e) context w =
                 (Return true,
                  record w (chain_head e ++ partial ++
                    EWrite ByFallback (context_lines context +:+ Error er +:+ newline)
                    :: log))
            /\ response_body (chain_head e ++ partial ++
                    EWrite ByFallback (context_lines context +:+ Error er +:+ newline)
                    :: log)
               = fold_right String.append EmptyString
                   (take n (body t (data_of (errors_As e))).1)
                 +:+ (context_lines context +:+ Error er +:+ newline))
    /\ (errors_As e = None ->
          handleError tm (Some e) context w =
            (Panic NilErrorResponse, record w (chain_head e ++ partial))).
Proof.
  intros Hl Hb.
  destruct (handleError_page_fails tm e context w t re Hl Hb) as (n & Hn & Hh & E).
  exists n. cbv zeta. conjuncts; [exact Hn | exact Hh | | ].
  - intros er Ha. rewrite Ha in E.
    erewrite bind_Return in E by apply writeBasicErrorResponse_Some.
    rewrite record_record, <- app_assoc in E.
    eexists. conjuncts.
    2: { rewrite E. rewrite Ha. simpl app. reflexivity. }
    + by destruct (wfail _ _).
    + rewrite Ha, response_body_app.
      change (response_body (chain_head e)) with EmptyString.
      rewrite string_app_nil_l, <- app_comm_cons.
      change (response_body (EExecute ?o ?x :: ?l)) with (response_body l).
      rewrite response_body_writes. f_equal.
      destruct (wfail _ _); simpl; by rewrite string_app_nil_r.
  - intros Ha. rewrite Ha in E.
    erewrite bind_Panic in E by apply writeBasicErrorResponse_None.
    rewrite E, Ha. reflexivity.
Qed.

Lemma handleError_partial_page_then_fallback_sample :
  exists (n : nat) (log : list effect),
    handleError {| Templates := broken_403;
                   Handler := failing_handler [] (statusError 403 "forbidden") |}
                (Some (statusError 403 "forbidden")) [] (quiet no_disk)
    = (Return true,
       record (quiet no_disk)
         (chain_head (statusError 403 "forbidden") ++
          (EExecute ByErrorPage "403.html"
           :: map (EWrite ByErrorPage) (take n ["<h1>Forbidden</h1>"])) ++
          EWrite ByFallback ("forbidden" +:+ newline) :: log))
    /\ n = 1%nat.
Proof.
  destruct (handleError_partial_page_then_fallback
              {| Templates := broken_403;
                 Handler := failing_handler [] (statusError 403 "forbidden") |}
              (statusError 403 "forbidden") [] (quiet no_disk)
              (broken_page "403.html" ["<h1>Forbidden</h1>"])
              (errorString "template: execution failed")
              eq_refl eq_refl)
    as (n & _ & Hn & H & _).
  destruct (H {| Status := 403; Error := "forbidden" |} eq_refl) as (log & _ & E & _).
  exists n, log. split; [exact E|].
  apply Hn. intros k. reflexivity.
Defined.

(** ** ServeHTTP *)

Lemma record_inj (w : World) (a b : list effect) : record w a = record w b -> a = b.
Proof.
  intros H. apply (f_equal effects) in H. rewrite !effects_record in H.
  by apply app_inv_head in H.
Qed.

(** C2 fails as stated: a handler that calls [WriteHeader(302)] and returns an
    error with status 404 makes the middleware call [WriteHeader] a second
    time and write the fallback text, so that the response carries the
    handler's status and the fallback body. *)
Lemma ServeHTTP_two_status_lines :
  let es := effects
       (ServeHTTP {| Templates := no_templates;
                     Handler := failing_handler [CallWriteHeader 302]
                                  (statusError 404 "gone") |}
                  root_request (quiet no_disk)).2 in
  header_codes es = [302; 404]
  /\ response_status es = 302
  /\ wrote ByFallback es = true
  /\ response_body es = "gone" +:+ newline.
Proof. vm_compute. repeat split; reflexivity. Qed.

(** C2, amended.  In every request the calls on the writer are the
    handler's own, followed by those of the middleware, and the middleware
    calls [WriteHeader] at most once; so at most one status line is written
    whenever the handler wrote none.  When the handler wrote a status and
    returned a nil error the middleware adds nothing.  When the handler
    returned an error, the middleware's [WriteHeader] call carries the
    status of that error, whatever the handler wrote before, and no output
    of the page template is written. *)
Theorem ServeHTTP_status_lines (tm : TemplateMiddleware) (r : Request) (w : World) :
  exists (o : outcome unit) (es : list effect),
    ServeHTTP tm r w = (o, record w (map call_effect (calls (Handler tm r)) ++ es))
    /\ forallb by_middleware es = true
    /\ (length (header_codes es) <= 1)%nat
    /\ (header_codes (map call_effect (calls (Handler tm r))) = [] ->
        (length (header_codes (map call_effect (calls (Handler tm r)) ++ es)) <= 1)%nat)
    /\ (ret_err (Handler tm r) = None -> captured 0 (calls (Handler tm r)) <> 0 ->
        o = Return tt /\ es = [])
    /\ (forall e : error, ret_err (Handler tm r) = Some e ->
        header_codes es = [status_of e] /\ wrote ByPage es = false).
Proof.
  destruct (ServeHTTP_shape tm r w) as (o & es & E & Hmw & Hlen & Ho).
  exists o, es. conjuncts; [exact E | exact Hmw | exact Hlen | | | ].
  - intros H. by rewrite header_codes_app, H.
  - intros He Hc. rewrite (ServeHTTP_taken_over tm r w He Hc) in E.
    pose proof (f_equal fst E) as E1. pose proof (f_equal snd E) as E2.
    cbn [fst snd] in E1, E2.
    rewrite <- (app_nil_r (map _ _)) in E2 at 1.
    apply record_inj, app_inv_head in E2. auto.
  - intros e He. destruct (ServeHTTP_error tm r w e He) as (o' & es' & E' & Hout & _).
    rewrite E' in E. pose proof (f_equal snd E) as E2. cbn [snd] in E2.
    apply record_inj, app_inv_head in E2. subst es.
    destruct (error_output_facts es' Hout) as (H1 & _ & _ & H4 & _).
    rewrite header_codes_app, wrote_app, H1, H4. by split.
Qed.

(** C4 fails as stated: a handler that calls [WriteHeader(204)] and returns
    an error is still routed through the error chain, which looks up
    [403.html] and writes the fallback text. *)
Lemma ServeHTTP_writes_after_handler_status :
  let es := effects
       (ServeHTTP {| Templates := no_templates;
                     Handler := failing_handler [CallWriteHeader 204]
                                  (statusError 403 "forbidden") |}
                  root_request (quiet no_disk)).2 in
  lookups es = ["403.html"] /\ wrote ByFallback es = true.
Proof. vm_compute. split; reflexivity. Qed.

(** C4, amended.  When the handler called [WriteHeader] (the recorded status
    code is not zero) and returned a nil error, [ServeHTTP] returns with the
    handler's calls as the only ones made: no lookup, no execution, no
    error rendering. *)
Theorem ServeHTTP_handler_took_over (tm : TemplateMiddleware) (r : Request) (w : World) :
  ret_err (Handler tm r) = None ->
  captured 0 (calls (Handler tm r)) <> 0 ->
  ServeHTTP tm r w = (Return tt, record w (map call_effect (calls (Handler tm r))))
  /\ lookups (map call_effect (calls (Handler tm r))) = []
  /\ executions (map call_effect (calls (Handler tm r))) = []
  /\ forallb (fun e => negb (by_middleware e)) (map call_effect (calls (Handler tm r))) = true.
Proof.
  intros He Hc. split; [by apply ServeHTTP_taken_over|].
  apply handler_effects_facts.
Qed.

Lemma ServeHTTP_handler_took_over_sample :
  ServeHTTP {| Templates := no_templates;
               Handler := page_handler [CallWriteHeader 302; CallWrite "moved"] None |}
            root_request (quiet no_disk)
  = (Return tt, record (quiet no_disk) [EWriteHeader ByHandler 302; EWrite ByHandler "moved"]).
Proof.
  exact (proj1 (ServeHTTP_handler_took_over
           {| Templates := no_templates;
              Handler := page_handler [CallWriteHeader 302; CallWrite "moved"] None |}
           root_request (quiet no_disk) eq_refl ltac:(discriminate))).
Defined.

(** C9.  [ServeHTTP] dereferences a nil descriptor exactly when the handler
    returned a nil descriptor with a nil error and left the recorded status
    at zero; nothing but the handler's calls has happened then.  A nil
    descriptor with an error or with a recorded status is never
    dereferenced. *)
Theorem ServeHTTP_nil_descriptor_panics (tm : TemplateMiddleware) (r : Request) (w : World) :
  ((ServeHTTP tm r w).1 = Panic NilTemplateDescriptor
   <-> ret_t (Handler tm r) = None /\ ret_err (Handler tm r) = None
       /\ captured 0 (calls (Handler tm r)) = 0)
  /\ ((ServeHTTP tm r w).1 = Panic NilTemplateDescriptor ->
      (ServeHTTP tm r w).2 = record w (map call_effect (calls (Handler tm r)))).
Proof.
  assert (Hfwd : (ServeHTTP tm r w).1 = Panic NilTemplateDescriptor ->
                 ret_t (Handler tm r) = None /\ ret_err (Handler tm r) = None
                 /\ captured 0 (calls (Handler tm r)) = 0).
  { destruct (ServeHTTP_shape tm r w) as (o & es & E & _ & _ & Ho).
    rewrite E. simpl. intros ->.
    destruct Ho as [Ho|[Ho|[_ Ho]]]; [discriminate Ho | discriminate Ho | exact Ho]. }
  split; [split; [exact Hfwd|] | ].
  - intros (Ht & He & Hc). by rewrite (ServeHTTP_nil_descriptor tm r w He Hc Ht).
  - intros H. destruct (Hfwd H) as (Ht & He & Hc).
    by rewrite (ServeHTTP_nil_descriptor tm r w He Hc Ht).
Qed.

(** ** Paths *)

Lemma plain_name_parts (x : string) :
  plain_name x = true ->
  String.eqb x "" = false /\ String.eqb x "." = false /\ String.eqb x ".." = false
  /\ existsb (Ascii.eqb slash) (list_ascii_of_string x) = false.
Proof.
  unfold plain_name. rewrite !andb_true_iff, !negb_true_iff. tauto.
Qed.

Lemma split_slash_cons (a : ascii) (s : string) :
  split_slash (String a s) =
    if Ascii.eqb a slash then EmptyString :: split_slash s
    else match split_slash s with
         | h :: t => String a h :: t
         | [] => [String a EmptyString]
         end.
Proof. reflexivity. Qed.

Lemma split_slash_nonempty (s : string) : split_slash s <> [].
Proof.
  destruct s as [|a s]; [discriminate|].
  rewrite split_slash_cons.
  destruct (Ascii.eqb a slash); [discriminate|].
  destruct (split_slash s); discriminate.
Qed.

Lemma split_slash_plain (x : string) :
  existsb (Ascii.eqb slash) (list_ascii_of_string x) = false -> split_slash x = [x].
Proof.
  induction x as [|a x IH]; [reflexivity|].
  cbn [list_ascii_of_string existsb]. intros H.
  apply orb_false_elim in H. destruct H as [Ha Hx].
  rewrite split_slash_cons, eqb_sym, Ha, (IH Hx). reflexivity.
Qed.

Lemma split_slash_app (a b : string) :
  split_slash (a +:+ String slash b) = split_slash a ++ split_slash b.
Proof.
  induction a as [|c a IH].
  - rewrite string_app_nil_l, split_slash_cons, Ascii.eqb_refl. reflexivity.
  - rewrite string_app_cons, !split_slash_cons, IH.
    destruct (Ascii.eqb c slash); [reflexivity|].
    destruct (split_slash a) as [|h t] eqn:E; [by destruct (split_slash_nonempty a)|].
    reflexivity.
Qed.

Lemma join_slash_snoc (l : list string) (x : string) :
  join_slash (l ++ [x]) =
    match l with
    | [] => x
    | _ => join_slash l +:+ String slash x
    end.
Proof.
  induction l as [|a l IH]; [reflexivity|].
  change ((a :: l) ++ [x]) with (a :: (l ++ [x])).
  destruct l as [|b l]; [reflexivity|].
  change (join_slash (a :: (b :: l) ++ [x]))
    with (a +:+ String slash (join_slash ((b :: l) ++ [x]))).
  rewrite IH.
  change (join_slash (a :: b :: l)) with (a +:+ String slash (join_slash (b :: l))).
  rewrite string_app_assoc, string_app_cons. reflexivity.
Qed.

Lemma clean_step_plain (rooted : bool) (acc : list string) (x : string) :
  plain_name x = true -> clean_step rooted acc x = x :: acc.
Proof.
  intros H. destruct (plain_name_parts x H) as (H1 & H2 & H3 & _).
  unfold clean_step. by rewrite H1, H2, H3.
Qed.

(** Cleaning a path whose last element is a plain name keeps that name last. *)
Lemma filepath_Clean_last (p : string) (l : list string) (x : string) :
  plain_name x = true ->
  split_slash p = l ++ [x] ->
  filepath_Clean p = x \/ exists q : string, filepath_Clean p = q +:+ String slash x.
Proof.
  intros Hx Hp. unfold filepath_Clean. cbv zeta. rewrite Hp, fold_left_app.
  cbn [fold_left]. rewrite clean_step_plain by exact Hx.
  set (acc := fold_left (clean_step (is_rooted p)) l []).
  cbn [rev]. rewrite join_slash_snoc.
  destruct (plain_name_parts x Hx) as (H1 & _).
  assert (Hne : forall q, String.eqb (q +:+ String slash x) "" = false).
  { intros q. apply String.eqb_neq. destruct q; discriminate. }
  destruct (is_rooted p), (rev acc) as [|a t] eqn:E.
  - right. exists EmptyString. reflexivity.
  - right. exists (String slash EmptyString +:+ join_slash (a :: t)). reflexivity.
  - left. rewrite string_app_nil_l, H1. reflexivity.
  - right. exists (join_slash (a :: t)).
    rewrite string_app_nil_l, Hne. reflexivity.
Qed.

Lemma filepath_Base_plain (x : string) : plain_name x = true -> filepath_Base x = x.
Proof.
  intros Hx. destruct (plain_name_parts x Hx) as (H1 & _ & _ & H4).
  unfold filepath_Base. rewrite H1, (split_slash_plain x H4).
  rewrite filter_cons_True; [reflexivity|].
  intros ->. discriminate H1.
Qed.

Lemma filepath_Base_last (q x : string) :
  plain_name x = true -> filepath_Base (q +:+ String slash x) = x.
Proof.
  intros Hx. destruct (plain_name_parts x Hx) as (H1 & _ & _ & H4).
  unfold filepath_Base.
  assert (Hne : String.eqb (q +:+ String slash x) "" = false).
  { apply String.eqb_neq. destruct q; discriminate. }
  rewrite Hne, split_slash_app, (split_slash_plain x H4), filter_app.
  rewrite (filter_cons_True _ x); [|intros ->; discriminate H1].
  rewrite rev_unit. reflexivity.
Qed.

(** The template name [ParseFiles] derives from a path built by [fixFiles]
    is the entry name the path was built from. *)
Lemma filepath_Base_Join (root x : string) :
  plain_name x = true -> filepath_Base (filepath_Join root x) = x.
Proof.
  intros Hx. destruct (plain_name_parts x Hx) as (H1 & _ & _ & H4).
  assert (H : forall p l, split_slash p = l ++ [x] -> filepath_Base (filepath_Clean p) = x).
  { intros p l Hp. destruct (filepath_Clean_last p l x Hx Hp) as [->|[q ->]].
    - by apply filepath_Base_plain.
    - by apply filepath_Base_last. }
  unfold filepath_Join. destruct (String.eqb root "").
  - rewrite H1. apply (H x []). by apply split_slash_plain.
  - apply (H _ (split_slash root)).
    by rewrite split_slash_app, (split_slash_plain x H4).
Qed.

(** ** fixFiles *)

Lemma fixFiles_spec (files : list DirEntry) (root : string) :
  fixFiles files root =
    map (fun e => filepath_Join root (Name e))
        (filter (fun e => ContainsAny (Name e) "#~" = false) files).
Proof.
  unfold fixFiles.
  assert (H : forall acc,
    fold_left (fun newFiles e =>
                 if ContainsAny (Name e) "#~" then newFiles
                 else newFiles ++ [filepath_Join root (Name e)]) files acc
    = acc ++ map (fun e => filepath_Join root (Name e))
               (filter (fun e => ContainsAny (Name e) "#~" = false) files)).
  { induction files as [|e files IH]; intros acc.
    - simpl. by rewrite app_nil_r.
    - cbn [fold_left]. rewrite IH.
      destruct (ContainsAny (Name e) "#~") eqn:E.
      + rewrite filter_cons_False by (rewrite E; discriminate). reflexivity.
      + rewrite filter_cons_True by exact E. rewrite <- app_assoc. reflexivity. }
  apply (H []).
Qed.

Lemma ContainsAny_hash_tilde (x : string) :
  ContainsAny x "#~" = true
  <-> In "#"%char (list_ascii_of_string x) \/ In "~"%char (list_ascii_of_string x).
Proof.
  induction x as [|a x IH].
  - simpl. split; [discriminate | tauto].
  - cbn [ContainsAny list_ascii_of_string existsb In].
    rewrite !orb_true_iff, IH, !Ascii.eqb_eq. intuition congruence.
Qed.

Lemma in_fixFiles (files : list DirEntry) (root : string) (e : DirEntry) :
  In e files -> ContainsAny (Name e) "#~" = false ->
  In (filepath_Join root (Name e)) (fixFiles files root).
Proof.
  intros Hin Hc. rewrite fixFiles_spec.
  apply (in_map (fun e => filepath_Join root (Name e))).
  apply list_elem_of_In, list_elem_of_filter. split; [exact Hc|].
  by apply list_elem_of_In.
Qed.

(** ** Parsing *)

Lemma baseTemplate_well_named : well_named baseTemplate.
Proof.
  intros k v H. unfold baseTemplate in H.
  apply lookup_singleton_Some in H. destruct H as [<- <-]. reflexivity.
Qed.

Lemma parse_each_succeeds (t : TemplateSet) (d : FS) (filenames : list string) :
  (forall p, In p filenames -> exists b, ReadTemplate d p = Ok b) ->
  exists t', parse_each t d filenames = Ok t'.
Proof.
  revert t. induction filenames as [|f rest IH]; intros t H; [by eexists|].
  simpl. destruct (H f (or_introl eq_refl)) as [b ->].
  apply IH. intros p Hp. apply H. by right.
Qed.

Lemma parse_each_keeps (t t' : TemplateSet) (d : FS) (filenames : list string) (k : string) :
  parse_each t d filenames = Ok t' ->
  is_Some (t !! k) -> is_Some (t' !! k).
Proof.
  revert t. induction filenames as [|f rest IH]; intros t H Hk.
  - simpl in H. by injection H as <-.
  - simpl in H. destruct (ReadTemplate d f) as [b|e]; [|discriminate].
    apply (IH _ H). destruct (decide (filepath_Base f = k)) as [->|Hne].
    + rewrite lookup_insert_eq. by eexists.
    + by rewrite lookup_insert_ne.
Qed.

Lemma parse_each_well_named (t t' : TemplateSet) (d : FS) (filenames : list string) :
  parse_each t d filenames = Ok t' -> well_named t -> well_named t'.
Proof.
  revert t. induction filenames as [|f rest IH]; intros t H Hw.
  - simpl in H. by injection H as <-.
  - simpl in H. destruct (ReadTemplate d f) as [b|e]; [|discriminate].
    apply (IH _ H). intros k v Hk.
    destruct (decide (filepath_Base f = k)) as [E|Hne].
    + subst k. rewrite lookup_insert_eq in Hk. by injection Hk as <-.
    + rewrite lookup_insert_ne in Hk by exact Hne. by apply Hw.
Qed.

Lemma parse_each_defines (t t' : TemplateSet) (d : FS) (filenames : list string) (f : string) :
  parse_each t d filenames = Ok t' ->
  In f filenames -> is_Some (t' !! filepath_Base f).
Proof.
  revert t. induction filenames as [|g rest IH]; intros t H Hin; [destruct Hin|].
  simpl in H. destruct (ReadTemplate d g) as [b|e]; [|discriminate].
  destruct Hin as [->|Hin].
  - apply (parse_each_keeps _ _ _ _ _ H). rewrite lookup_insert_eq. by eexists.
  - by apply (IH _ H).
Qed.

Lemma parse_each_untouched (t t' : TemplateSet) (d : FS) (filenames : list string) (k : string) :
  parse_each t d filenames = Ok t' ->
  (forall f, In f filenames -> filepath_Base f <> k) ->
  t' !! k = t !! k.
Proof.
  revert t. induction filenames as [|g rest IH]; intros t H Hk.
  - simpl in H. by injection H as <-.
  - simpl in H. destruct (ReadTemplate d g) as [b|e]; [|discriminate].
    rewrite (IH _ H) by (intros f Hf; apply Hk; by right).
    apply lookup_insert_ne. apply Hk. by left.
Qed.

(** The template a file defines, when no other file of the list shares
    its base name. *)
Lemma parse_each_body (t t' : TemplateSet) (d : FS) (filenames : list string)
    (f : string) (b : Data -> list string * option error) :
  parse_each t d filenames = Ok t' ->
  In f filenames ->
  (forall g, In g filenames -> filepath_Base g = filepath_Base f -> g = f) ->
  ReadTemplate d f = Ok b ->
  t' !! filepath_Base f = Some {| tname := filepath_Base f; body := b |}.
Proof.
  revert t. induction filenames as [|g rest IH]; intros t H Hin Huniq Hb; [destruct Hin|].
  simpl in H. destruct (ReadTemplate d g) as [bg|e] eqn:Eg; [|discriminate].
  destruct (in_dec string_dec f rest) as [Hr|Hr].
  - apply (IH _ H Hr); [|exact Hb]. intros g' Hg'. apply Huniq. by right.
  - destruct Hin as [->|Hin]; [|by destruct Hr].
    rewrite (parse_each_untouched _ _ _ _ _ H).
    + rewrite lookup_insert_eq. rewrite Hb in Eg. by injection Eg as <-.
    + intros g' Hg' Heq. apply Hr. rewrite <- (Huniq g' (or_intror Hg') Heq). exact Hg'.
Qed.

Lemma parse_each_ext (t : TemplateSet) (d1 d2 : FS) (filenames : list string) :
  (forall p, In p filenames -> ReadTemplate d1 p = ReadTemplate d2 p) ->
  parse_each t d1 filenames = parse_each t d2 filenames.
Proof.
  revert t. induction filenames as [|f rest IH]; intros t H; [reflexivity|].
  simpl. rewrite <- (H f (or_introl eq_refl)).
  destruct (ReadTemplate d1 f); [|reflexivity].
  apply IH. intros p Hp. apply H. by right.
Qed.

Lemma ParseFiles_parse_each (t : TemplateSet) (d : FS) (filenames : list string) :
  filenames <> [] -> ParseFiles t d filenames = parse_each t d filenames.
Proof. destruct filenames; [congruence | reflexivity]. Qed.

Lemma ParseFiles_ext (t : TemplateSet) (d1 d2 : FS) (filenames : list string) :
  (forall p, In p filenames -> ReadTemplate d1 p = ReadTemplate d2 p) ->
  ParseFiles t d1 filenames = ParseFiles t d2 filenames.
Proof.
  intros H. destruct filenames as [|f rest]; [reflexivity|].
  rewrite !ParseFiles_parse_each by discriminate. by apply parse_each_ext.
Qed.

Lemma in_fixFiles_inv (files : list DirEntry) (root p : string) :
  In p (fixFiles files root) ->
  exists e, In e files /\ ContainsAny (Name e) "#~" = false /\ p = filepath_Join root (Name e).
Proof.
  rewrite fixFiles_spec. intros H. apply in_map_iff in H. destruct H as (e & <- & He).
  apply list_elem_of_In, list_elem_of_filter in He. destruct He as [Hc He].
  exists e. split; [by apply list_elem_of_In|]. by split.
Qed.

(** ** The managers *)

Lemma lookupTemplate_Some (main : TemplateSet) (name : string) (t : Tmpl) :
  main !! name = Some t -> lookupTemplate main name = (Some t, None).
Proof. unfold lookupTemplate. by intros ->. Qed.

Lemma lookupTemplate_None (main : TemplateSet) (name : string) :
  main !! name = None ->
  lookupTemplate main name = (None, Some (errorString ("cannot find template " +:+ name))).
Proof. unfold lookupTemplate. by intros ->. Qed.

(** A directory whose kept files all parse gives a set that holds every
    kept entry under its own name. *)
Lemma listing_parses (d : FS) (srcDir : string) (files : list DirEntry) (e : DirEntry) :
  (forall p, In p (fixFiles files srcDir) -> exists b, ReadTemplate d p = Ok b) ->
  In e files -> ContainsAny (Name e) "#~" = false -> plain_name (Name e) = true ->
  exists (main : TemplateSet) (t : Tmpl),
    ParseFiles baseTemplate d (fixFiles files srcDir) = Ok main
    /\ main !! Name e = Some t /\ tname t = Name e.
Proof.
  intros Hparse Hin Hc Hp.
  pose proof (in_fixFiles files srcDir e Hin Hc) as Hf.
  destruct (parse_each_succeeds baseTemplate d _ Hparse) as [main Hmain].
  destruct (parse_each_defines _ _ _ _ _ Hmain Hf) as [t Ht].
  rewrite (filepath_Base_Join srcDir (Name e) Hp) in Ht.
  exists main, t. conjuncts.
  - rewrite ParseFiles_parse_each; [exact Hmain|]. intros E. rewrite E in Hf. destruct Hf.
  - exact Ht.
  - apply (parse_each_well_named _ _ _ _ Hmain baseTemplate_well_named _ _ Ht).
Qed.

(** C5.  A name that is absent from the parsed set is answered with a nil
    handle and the error [cannot find template <name>], by the embedded
    manager and, after the directory has been read and parsed, by the
    filesystem manager.  No lookup of either manager ever returns a nil
    handle with a nil error. *)
Theorem LookupTemplate_absent_name :
  (forall (ts : TemplateSet) (d : FS) (name : string),
      ts !! name = None ->
      LookupTemplate (embedTM ts) d name
      = (None, Some (errorString ("cannot find template " +:+ name))))
  /\ (forall (srcDir : string) (d : FS) (files : list DirEntry) (main : TemplateSet)
             (name : string),
      ReadDir d srcDir = Ok files ->
      ParseFiles baseTemplate d (fixFiles files srcDir) = Ok main ->
      main !! name = None ->
      LookupTemplate (fsTM srcDir) d name
      = (None, Some (errorString ("cannot find template " +:+ name))))
  /\ (forall (tm : TemplateManager) (d : FS) (name : string),
      LookupTemplate tm d name <> (None, None)).
Proof.
  conjuncts.
  - intros ts d name H. by apply lookupTemplate_None.
  - intros srcDir d files main name Hr Hp H. simpl. unfold fsTM_LookupTemplate.
    rewrite Hr, Hp. by apply lookupTemplate_None.
  - intros tm d name H.
    destruct (LookupTemplate_cases tm d name) as [[t E]|[e E]]; rewrite E in H; discriminate.
Qed.

Lemma glob_all_plain (d : FS) (patterns : list string) :
  (forall p, In p patterns -> hasMeta p = false /\ Stat d p = true) ->
  glob_all d patterns = Ok patterns.
Proof.
  induction patterns as [|p rest IH]; intros H; [reflexivity|].
  destruct (H p (or_introl eq_refl)) as [Hm Hs].
  cbn [glob_all]. unfold fs_Glob. rewrite Hm, Hs.
  rewrite IH by (intros q Hq; apply H; by right). reflexivity.
Qed.

Lemma glob_all_fails (d : FS) (patterns : list string) (p : string) :
  In p patterns -> fs_Glob d p = Ok [] ->
  exists e, glob_all d patterns = Err e.
Proof.
  induction patterns as [|q rest IH]; intros Hin Hp; [destruct Hin|].
  cbn [glob_all]. destruct Hin as [->|Hin].
  - rewrite Hp. by eexists.
  - destruct (fs_Glob d q) as [[|f fs]|e]; try by eexists.
    destruct (IH Hin Hp) as [e ->]. by eexists.
Qed.

(** C6 (a defect of the code in the embedded variant).  [fixFiles] keeps
    exactly the entries whose name holds neither [#] nor [~], in the order
    of the listing, each joined to the directory.  When every kept file
    parses, each kept entry resolves under its own name through the
    filesystem manager.  The embedded manager hands the kept paths to
    [ParseFS], which reads them as glob patterns: when no kept path holds a
    metacharacter (and the files exist) it is built and resolves each kept
    entry too, but a kept path that matches no file as a pattern makes
    [NewTemplateManagerEmbed] fail. *)
Theorem fixFiles_filters_and_kept_names_resolve
    (d : FS) (srcDir : string) (files : list DirEntry) :
  ReadDir d srcDir = Ok files ->
  (forall p, In p (fixFiles files srcDir) -> exists b, ReadTemplate d p = Ok b) ->
  fixFiles files srcDir =
    map (fun e => filepath_Join srcDir (Name e))
        (filter (fun e => ContainsAny (Name e) "#~" = false) files)
  /\ (forall x : string,
        ContainsAny x "#~" = true
        <-> In "#"%char (list_ascii_of_string x) \/ In "~"%char (list_ascii_of_string x))
  /\ (forall e : DirEntry,
        In e files -> ContainsAny (Name e) "#~" = false -> plain_name (Name e) = true ->
        (exists t : Tmpl,
            LookupTemplate (fsTM srcDir) d (Name e) = (Some t, None) /\ tname t = Name e)
        /\ ((forall p, In p (fixFiles files srcDir) -> hasMeta p = false /\ Stat d p = true) ->
            exists ts : TemplateSet,
              NewTemplateManagerEmbed d srcDir = (Some (embedTM ts), None)
              /\ forall d' : FS, exists t : Tmpl,
                   LookupTemplate (embedTM ts) d' (Name e) = (Some t, None)
                   /\ tname t = Name e))
  /\ (forall p : string,
        In p (fixFiles files srcDir) -> fs_Glob d p = Ok [] ->
        exists w : error, NewTemplateManagerEmbed d srcDir = (None, Some w)).
Proof.
  intros Hr Hparse. conjuncts.
  - apply fixFiles_spec.
  - apply ContainsAny_hash_tilde.
  - intros e Hin Hc Hp.
    destruct (listing_parses d srcDir files e Hparse Hin Hc Hp) as (main & t & Hm & Ht & Hn).
    split.
    + exists t. split; [|exact Hn]. simpl. unfold fsTM_LookupTemplate.
      rewrite Hr, Hm. by apply lookupTemplate_Some.
    + intros Hplain. exists main. split.
      * unfold NewTemplateManagerEmbed, ParseFS.
        by rewrite Hr, (glob_all_plain d _ Hplain), Hm.
      * intros d'. exists t. split; [|exact Hn]. by apply lookupTemplate_Some.
  - intros p Hin Hg. destruct (glob_all_fails d _ p Hin Hg) as [e He].
    unfold NewTemplateManagerEmbed, ParseFS. rewrite Hr, He. by eexists.
Qed.

Lemma fixFiles_filters_and_kept_names_resolve_sample :
  fixFiles tpl_listing "tpl" = ["tpl/403.html"; "tpl/index.html"]
  /\ (exists t : Tmpl,
        LookupTemplate (fsTM "tpl") tpl_disk "index.html" = (Some t, None)
        /\ tname t = "index.html")
  /\ (exists ts : TemplateSet,
        NewTemplateManagerEmbed tpl_disk "tpl" = (Some (embedTM ts), None)
        /\ forall d' : FS, exists t : Tmpl,
             LookupTemplate (embedTM ts) d' "index.html" = (Some t, None)
             /\ tname t = "index.html").
Proof.
  split; [vm_compute; reflexivity|].
  assert (Hparse : forall p, In p (fixFiles tpl_listing "tpl") ->
                             exists b, ReadTemplate tpl_disk p = Ok b).
  { intros p Hp. vm_compute in Hp.
    destruct Hp as [<-|[<-|[]]]; eexists; reflexivity. }
  assert (Hplain : forall p, In p (fixFiles tpl_listing "tpl") ->
                             hasMeta p = false /\ Stat tpl_disk p = true).
  { intros p Hp. vm_compute in Hp.
    destruct Hp as [<-|[<-|[]]]; split; reflexivity. }
  destruct (proj1 (proj2 (proj2 (fixFiles_filters_and_kept_names_resolve
              tpl_disk "tpl" tpl_listing eq_refl Hparse)))
            {| Name := "index.html" |}
            (or_intror (or_intror (or_introl eq_refl))) eq_refl eq_refl)
    as [Hfs Hembed].
  split; [exact Hfs | exact (Hembed Hplain)].
Defined.

(** A file named [[id].html] is kept by [fixFiles], parses, and resolves
    through the filesystem manager; the embedded manager cannot be built
    from the same directory, because the path is read as a pattern. *)
Lemma NewTemplateManagerEmbed_bracket_name_fails :
  fixFiles bracket_listing "tpl" = ["tpl/[id].html"; "tpl/index.html"]
  /\ LookupTemplate (fsTM "tpl") bracket_disk "[id].html"
     = (Some {| tname := "[id].html"; body := about_body |}, None)
  /\ fst (NewTemplateManagerEmbed bracket_disk "tpl") = None
  /\ option_map error_Error (snd (NewTemplateManagerEmbed bracket_disk "tpl"))
     = Some ("error initializing templates from embedded filesystem: "
             +:+ "template: pattern matches no files: "
             +:+ backquote +:+ "tpl/[id].html" +:+ backquote).
Proof. vm_compute. repeat split; reflexivity. Qed.

(** C8.  The filesystem manager is built without touching the directory
    and holds only its path.  A lookup reads the directory as it is at the
    time of the call: two trees that agree on the listing and on the kept
    files give the same answer, and a file that is in the directory now is
    found under its name, with the body it has now, by the manager that was
    built before. *)
Theorem fsTM_lookup_reads_current_directory (srcDir : string) :
  NewTemplateManagerFS srcDir = (Some (fsTM srcDir), None)
  /\ (forall (d1 d2 : FS) (name : string),
        ReadDir d1 srcDir = ReadDir d2 srcDir ->
        (forall files p, ReadDir d1 srcDir = Ok files -> In p (fixFiles files srcDir) ->
                         ReadTemplate d1 p = ReadTemplate d2 p) ->
        LookupTemplate (fsTM srcDir) d1 name = LookupTemplate (fsTM srcDir) d2 name)
  /\ (forall (tm : TemplateManager) (now : FS) (files : list DirEntry) (x : string)
             (b : Data -> list string * option error),
        NewTemplateManagerFS srcDir = (Some tm, None) ->
        ReadDir now srcDir = Ok files ->
        (forall e, In e files -> plain_name (Name e) = true) ->
        (forall p, In p (fixFiles files srcDir) -> exists b', ReadTemplate now p = Ok b') ->
        In {| Name := x |} files ->
        ContainsAny x "#~" = false ->
        ReadTemplate now (filepath_Join srcDir x) = Ok b ->
        LookupTemplate tm now x = (Some {| tname := x; body := b |}, None)).
Proof.
  conjuncts.
  - reflexivity.
  - intros d1 d2 name Hdir Hfiles. simpl. unfold fsTM_LookupTemplate.
    rewrite <- Hdir. destruct (ReadDir d1 srcDir) as [files|e] eqn:E; [|reflexivity].
    rewrite (ParseFiles_ext baseTemplate d1 d2 (fixFiles files srcDir)); [reflexivity|].
    intros p Hp. by apply (Hfiles files).
  - intros tm now files x b Htm Hr Hplain Hparse Hin Hc Hb.
    injection Htm as <-. simpl. unfold fsTM_LookupTemplate. rewrite Hr.
    pose proof (in_fixFiles files srcDir {| Name := x |} Hin Hc) as Hf. simpl in Hf.
    destruct (parse_each_succeeds baseTemplate now _ Hparse) as [main Hmain].
    rewrite ParseFiles_parse_each, Hmain
      by (intros E; rewrite E in Hf; destruct Hf).
    apply lookupTemplate_Some.
    pose proof (Hplain _ Hin) as Hx. simpl in Hx.
    rewrite <- (filepath_Base_Join srcDir x Hx) at 1 2.
    apply (parse_each_body _ _ _ _ _ _ Hmain Hf); [|exact Hb].
    intros g Hg Hbase. apply in_fixFiles_inv in Hg. destruct Hg as (e & He & _ & ->).
    rewrite !filepath_Base_Join in Hbase by (exact Hx || by apply Hplain).
    by rewrite Hbase.
Qed.

Lemma fsTM_lookup_reads_current_directory_sample :
  LookupTemplate (fsTM "tpl") tpl_disk "about.html"
  = (None, Some (errorString "cannot find template about.html"))
  /\ LookupTemplate (fsTM "tpl") tpl_disk_later "about.html"
     = (Some {| tname := "about.html"; body := about_body |}, None).
Proof.
  split; [vm_compute; reflexivity|].
  assert (Hplain : forall e, In e ({| Name := "about.html" |} :: tpl_listing) ->
                             plain_name (Name e) = true).
  { intros e He. vm_compute in He.
    destruct He as [<-|[<-|[<-|[<-|[<-|[]]]]]]; reflexivity. }
  assert (Hparse : forall p,
            In p (fixFiles ({| Name := "about.html" |} :: tpl_listing) "tpl") ->
            exists b, ReadTemplate tpl_disk_later p = Ok b).
  { intros p Hp. vm_compute in Hp.
    destruct Hp as [<-|[<-|[<-|[]]]]; eexists; reflexivity. }
  exact (proj2 (proj2 (fsTM_lookup_reads_current_directory "tpl"))
           (fsTM "tpl") tpl_disk_later _ "about.html" about_body
           eq_refl eq_refl Hplain Hparse (or_introl eq_refl) eq_refl eq_refl).
Defined.

(** ** More on the managers *)

Lemma parse_each_fails (t : TemplateSet) (d : FS) (filenames : list string)
    (p : string) (e : error) :
  In p filenames -> ReadTemplate d p = Err e ->
  exists e', parse_each t d filenames = Err e'.
Proof.
  revert t. induction filenames as [|f rest IH]; intros t Hin Hp; [destruct Hin|].
  simpl. destruct (ReadTemplate d f) as [b|e0] eqn:E; [|by eexists].
  destruct Hin as [->|Hin]; [rewrite Hp in E; discriminate|].
  by apply IH.
Qed.

(** X2.  A directory in which every entry is an editor leftover gives
    [ParseFiles] no file at all: every lookup of the filesystem manager
    fails with the error of [ParseFiles], not with "cannot find template",
    and the embedded manager cannot be built. *)
Theorem only_leftovers_fail_every_lookup
    (d : FS) (srcDir : string) (files : list DirEntry) :
  ReadDir d srcDir = Ok files ->
  (forall e, In e files -> ContainsAny (Name e) "#~" = true) ->
  fixFiles files srcDir = []
  /\ (forall name,
        LookupTemplate (fsTM srcDir) d name
        = (None, Some (errorString "html/template: no files named in call to ParseFiles")))
  /\ (exists w, NewTemplateManagerEmbed d srcDir = (None, Some w)
                /\ errors_As w = None).
Proof.
  intros Hr Hall.
  assert (Hf : fixFiles files srcDir = []).
  { rewrite fixFiles_spec.
    replace (filter (fun e => ContainsAny (Name e) "#~" = false) files) with (@nil DirEntry);
      [reflexivity|].
    symmetry. clear Hr. induction files as [|e files IH]; [reflexivity|].
    rewrite filter_cons_False.
    - apply IH. intros e' He'. apply Hall. by right.
    - rewrite (Hall e (or_introl eq_refl)). discriminate. }
  conjuncts; [exact Hf | | ].
  - intros name. simpl. unfold fsTM_LookupTemplate. by rewrite Hr, Hf.
  - unfold NewTemplateManagerEmbed, ParseFS. rewrite Hr, Hf. simpl. by eexists.
Qed.

Lemma only_leftovers_fail_every_lookup_sample :
  LookupTemplate (fsTM "tpl") backup_disk "index.html"
  = (None, Some (errorString "html/template: no files named in call to ParseFiles")).
Proof.
  assert (H : forall e, In e [ {| Name := "#index.html#" |}; {| Name := "index.html~" |} ] ->
                        ContainsAny (Name e) "#~" = true).
  { intros e He. destruct He as [<-|[<-|[]]]; reflexivity. }
  exact (proj1 (proj2 (only_leftovers_fail_every_lookup backup_disk "tpl" _ eq_refl H))
           "index.html").
Defined.

(** X3.  The filesystem manager hands on what goes wrong while it reads:
    when the directory cannot be listed every lookup returns that error,
    and when one kept file does not parse every lookup fails, also the
    lookup of a name whose own file is fine. *)
Theorem fsTM_lookup_propagates_failures (d : FS) (srcDir : string) :
  (forall e name, ReadDir d srcDir = Err e ->
      LookupTemplate (fsTM srcDir) d name = (None, Some e))
  /\ (forall files p e,
        ReadDir d srcDir = Ok files ->
        In p (fixFiles files srcDir) ->
        ReadTemplate d p = Err e ->
        exists e', forall name, LookupTemplate (fsTM srcDir) d name = (None, Some e')).
Proof.
  split.
  - intros e name H. simpl. unfold fsTM_LookupTemplate. by rewrite H.
  - intros files p e Hr Hin Hp.
    destruct (parse_each_fails baseTemplate d _ p e Hin Hp) as [e' He'].
    exists e'. intros name. simpl. unfold fsTM_LookupTemplate. rewrite Hr.
    rewrite ParseFiles_parse_each, He'; [reflexivity|].
    intros E. rewrite E in Hin. destruct Hin.
Qed.

Lemma fsTM_lookup_propagates_failures_sample :
  exists e', forall name, LookupTemplate (fsTM "tpl") bad_syntax_disk name = (None, Some e').
Proof.
  exact (proj2 (fsTM_lookup_propagates_failures bad_syntax_disk "tpl")
           tpl_listing "tpl/403.html" (errorString "template: unexpected EOF")
           eq_refl (or_introl eq_refl) eq_refl).
Defined.

(** ** More on the error chain *)

(** X5.  [handleError] tells its caller to go on exactly when the error is
    nil, and then it has done nothing.  For a non-nil error whose status
    the writer accepts it returns [true], or panics on the nil [er] of the
    fallback; the second happens only for an error that holds no
    [ErrorResponse]. *)
Theorem handleError_stop_iff_error
    (tm : TemplateMiddleware) (err : option error) (context : list string) (w : World) :
  ((handleError tm err context w).1 = Return false <-> err = None)
  /\ (err = None -> (handleError tm err context w).2 = w)
  /\ (forall e : error, err = Some e -> valid_code (status_of e) = true ->
      (handleError tm err context w).1 = Return true
      \/ ((handleError tm err context w).1 = Panic NilErrorResponse
          /\ errors_As e = None)).
Proof.
  destruct err as [e|].
  - destruct (handleError_shape tm e context w) as (o & es & E & _ & Ho).
    rewrite E. cbn [fst snd]. conjuncts.
    + split; [|discriminate]. intros ->. destruct Ho as [Ho|[Ho _]]; discriminate Ho.
    + discriminate.
    + intros e' He' _. injection He' as <-. destruct Ho as [->|[-> Ha]]; auto.
  - rewrite handleError_nil. cbn [fst snd]. conjuncts; [tauto | auto | discriminate].
Qed.

(** X6.  The fallback never fails for a non-nil [ErrorResponse]: it makes
    one [Write] call carrying the context lines and the message, and an
    error of that write is logged and dropped. *)
Theorem writeBasicErrorResponse_swallows_write_errors
    (r : ErrorResponse) (context : list string) (w : World) :
  exists log : list effect,
    writeBasicErrorResponse (Some r) context w =
      (Return tt,
       record w (EWrite ByFallback (context_lines context +:+ Error r +:+ newline) :: log))
    /\ forallb is_log log = true
    /\ (wfail w (writes_so_far w) = false -> log = [])
    /\ (wfail w (writes_so_far w) = true -> length log = 1%nat).
Proof.
  rewrite writeBasicErrorResponse_Some. eexists. split; [reflexivity|].
  destruct (wfail w (writes_so_far w)); conjuncts; auto; discriminate.
Qed.

Lemma handleError_plain_unresolved (tm : TemplateMiddleware) (e : error)
    (context : list string) (w : World) (t : option Tmpl) (le : error) :
  errors_As e = None ->
  LookupTemplate (Templates tm) (disk w) "500.html" = (t, Some le) ->
  handleError tm (Some e) context w =
    (Panic NilErrorResponse,
     record w [EWriteHeader ByErrorChain 500; ELog Warn (error_Error e); ELookup "500.html";
               ELog Warn ("Did not find template 500.html " +:+ error_Error le)]).
Proof.
  intros Ha Hl. rewrite handleError_eq, (status_of_plain e Ha), templateFile_of_500, Hl, Ha.
  erewrite bind_Panic by apply writeBasicErrorResponse_None.
  rewrite (chain_head_plain e Ha). reflexivity.
Qed.

(** X7.  When the status template resolves and executes without error on
    a healthy writer, the chain writes the status and the page and nothing
    else: no fallback, and no panic even for a plain error.  The template
    is executed against the [ErrorResponse] found in the error, or against
    nil when there is none. *)
Theorem handleError_renders_error_page
    (tm : TemplateMiddleware) (e : error) (context : list string) (w : World) (t : Tmpl) :
  LookupTemplate (Templates tm) (disk w) (templateFile_of (status_of e)) = (Some t, None) ->
  (body t (data_of (errors_As e))).2 = None ->
  healthy w ->
  handleError tm (Some e) context w =
    (Return true,
     record w (chain_head e ++ EExecute ByErrorPage (tname t)
               :: map (EWrite ByErrorPage) (body t (data_of (errors_As e))).1))
  /\ wrote ByFallback
       (chain_head e ++ EExecute ByErrorPage (tname t)
        :: map (EWrite ByErrorPage) (body t (data_of (errors_As e))).1) = false.
Proof.
  intros Hl Hb Hw. split.
  - rewrite handleError_eq, Hl.
    erewrite bind_Return by (apply Execute_healthy; by apply healthy_record).
    rewrite Hb, record_record. reflexivity.
  - rewrite wrote_app. cbn [wrote existsb chain_head orb].
    induction ((body t (data_of (errors_As e))).1) as [|c cs IH]; [reflexivity|].
    exact IH.
Qed.

Lemma handleError_renders_error_page_sample :
  handleError {| Templates := tpl_embedded;
                 Handler := failing_handler [] (statusError 403 "forbidden") |}
              (Some (statusError 403 "forbidden")) [] (quiet no_disk)
  = (Return true,
     record (quiet no_disk)
       [EWriteHeader ByErrorChain 403; ELog Warn "forbidden"; ELookup "403.html";
        EExecute ByErrorPage "403.html"; EWrite ByErrorPage "<h1>Forbidden</h1>"]).
Proof.
  exact (proj1 (handleError_renders_error_page
           {| Templates := tpl_embedded;
              Handler := failing_handler [] (statusError 403 "forbidden") |}
           (statusError 403 "forbidden") [] (quiet no_disk)
           {| tname := "403.html"; body := forbidden_body |}
           eq_refl eq_refl (fun _ => eq_refl))).
Defined.

(** X8.  Wrapping keeps the status and the body but not the log line: for
    an error that wraps one holding an [ErrorResponse], the status written
    is the one of the [ErrorResponse], the logged message is the one of the
    wrapper, and the fallback body is the message of the [ErrorResponse]. *)
Theorem handleError_wrapped_error
    (tm : TemplateMiddleware) (msg : string) (inner : error) (er : ErrorResponse)
    (context : list string) (w : World) :
  errors_As inner = Some er ->
  (LookupTemplate (Templates tm) (disk w) (templateFile_of (Status er))).1 = None ->
  exists es : list effect,
    handleError tm (Some (wrapError msg inner)) context w =
      (Return true,
       record w (EWriteHeader ByErrorChain (Status er)
                 :: ELog (level_of (Status er)) msg :: es))
    /\ header_codes es = []
    /\ response_body es = context_lines context +:+ Error er +:+ newline.
Proof.
  intros Ha Hl.
  assert (Ha' : errors_As (wrapError msg inner) = Some er) by exact Ha.
  assert (Hs : status_of (wrapError msg inner) = Status er) by (by apply status_of_As).
  destruct (LookupTemplate_cases (Templates tm) (disk w) (templateFile_of (Status er)))
    as [[t E]|[le E]]; [rewrite E in Hl; discriminate|].
  destruct (handleError_fallback tm (wrapError msg inner) er context w None le Ha')
    as (log & EH & Hlog); [by rewrite Hs|].
  destruct (log_facts log Hlog) as (L1 & L2 & _).
  destruct (error_output_facts log L1) as (F1 & _).
  eexists. split.
  { rewrite EH. unfold chain_head. rewrite Hs. cbn [app error_Error]. reflexivity. }
  split.
  - exact F1.
  - change ((context_lines context +:+ Error er +:+ newline) +:+ response_body log
            = context_lines context +:+ Error er +:+ newline).
    by rewrite L2, string_app_nil_r.
Qed.

Lemma handleError_wrapped_error_sample :
  exists es : list effect,
    handleError {| Templates := no_templates;
                   Handler := failing_handler [] (errorString "unused") |}
                (Some (wrapError "loading profile: not found" (statusError 404 "not found")))
                [] (quiet no_disk)
    = (Return true,
       record (quiet no_disk)
         (EWriteHeader ByErrorChain 404 :: ELog Warn "loading profile: not found" :: es))
    /\ response_body es = "not found" +:+ newline.
Proof.
  destruct (handleError_wrapped_error
              {| Templates := no_templates;
                 Handler := failing_handler [] (errorString "unused") |}
              "loading profile: not found" (statusError 404 "not found")
              {| Status := 404; Error := "not found" |} [] (quiet no_disk)
              eq_refl eq_refl)
    as (es & E & _ & Hb).
  exists es. split; [exact E | exact Hb].
Defined.

(** ** More on ServeHTTP *)

Lemma response_status_writes (o : origin) (cs : list string) :
  response_status (map (EWrite o) cs) = 200.
Proof. by destruct cs. Qed.

Lemma header_codes_writes (o : origin) (cs : list string) :
  header_codes (map (EWrite o) cs) = [].
Proof. induction cs as [|c cs IH]; [reflexivity | exact IH]. Qed.

Lemma response_body_page (o : origin) (name : string) (cs : list string) :
  response_body (EExecute o name :: map (EWrite o) cs)
  = fold_right String.append EmptyString cs.
Proof.
  change (response_body (map (EWrite o) cs) = fold_right String.append EmptyString cs).
  rewrite <- (app_nil_r (map _ cs)), response_body_writes. simpl.
  apply string_app_nil_r.
Qed.

(** The page is executed without error on a healthy writer. *)
Lemma render_clean (tm : TemplateMiddleware) (gt : Tmpl) (data : Data) (w : World) :
  (body gt data).2 = None -> healthy w ->
  (Execute ByPage (Some gt) data ≫= fun err =>
   handleError tm err [] ≫= fun _ => mret tt) w
  = (Return tt, record w (EExecute ByPage (tname gt) :: map (EWrite ByPage) (body gt data).1)).
Proof.
  intros Hb Hw. erewrite bind_Return by (by apply Execute_healthy).
  rewrite Hb. erewrite bind_Return by apply handleError_nil. reflexivity.
Qed.

(** X9.  A handler that returns [NamedTemplate(name)] and a nil error,
    with no status recorded: when [name] resolves and the template
    executes without error the middleware looks the name up once and writes
    the template output after whatever the handler wrote.  It never calls
    [WriteHeader], so the status of a response the handler did not touch
    is the default 200 and its body is the template output. *)
Theorem ServeHTTP_renders_named_page
    (tm : TemplateMiddleware) (r : Request) (w : World) (name : string) (t : Tmpl) :
  ret_err (Handler tm r) = None ->
  captured 0 (calls (Handler tm r)) = 0 ->
  ret_t (Handler tm r) = NamedTemplate name ->
  LookupTemplate (Templates tm) (disk w) name = (Some t, None) ->
  (body t (ret_data (Handler tm r))).2 = None ->
  healthy w ->
  let page := ELookup name :: EExecute ByPage (tname t)
              :: map (EWrite ByPage) (body t (ret_data (Handler tm r))).1 in
  ServeHTTP tm r w = (Return tt, record w (map call_effect (calls (Handler tm r)) ++ page))
  /\ header_codes page = []
  /\ response_status page = 200
  /\ response_body page
     = fold_right String.append EmptyString (body t (ret_data (Handler tm r))).1.
Proof.
  intros He Hc Ht Hl Hb Hw page. conjuncts.
  - rewrite ServeHTTP_eq, He, Hc, Ht.
    erewrite bind_Return by apply handleError_nil.
    change (negb (0 =? 0)) with false. unfold NamedTemplate. cbv iota. cbn [direct named].
    erewrite bind_Return by apply Templates_LookupTemplate_eq.
    rewrite disk_record, Hl.
    erewrite bind_Return by apply handleError_nil.
    cbv iota. rewrite render_clean by (exact Hb || by repeat apply healthy_record).
    rewrite !record_record. reflexivity.
  - apply header_codes_writes.
  - apply response_status_writes.
  - exact (response_body_page ByPage (tname t) _).
Qed.

Lemma ServeHTTP_renders_named_page_sample :
  ServeHTTP {| Templates := home_templates;
               Handler := page_handler [] (NamedTemplate "home.html") |}
            root_request (quiet no_disk)
  = (Return tt,
     record (quiet no_disk)
       [ELookup "home.html"; EExecute ByPage "home.html"; EWrite ByPage "<p>hi</p>"]).
Proof.
  exact (proj1 (ServeHTTP_renders_named_page
           {| Templates := home_templates;
              Handler := page_handler [] (NamedTemplate "home.html") |}
           root_request (quiet no_disk) "home.html"
           (static_page "home.html" ["<p>hi</p>"])
           eq_refl eq_refl eq_refl eq_refl eq_refl (fun _ => eq_refl))).
Defined.

(** X10.  A handler that returns [DirectTemplate(gt)] with a non-nil [gt]:
    the manager is not consulted for the page.  When [gt] executes without
    error, no lookup happens at all during the request, whatever the
    manager holds. *)
Theorem ServeHTTP_direct_template_skips_lookup
    (tm : TemplateMiddleware) (r : Request) (w : World) (gt : Tmpl) :
  ret_err (Handler tm r) = None ->
  captured 0 (calls (Handler tm r)) = 0 ->
  ret_t (Handler tm r) = DirectTemplate (Some gt) ->
  (body gt (ret_data (Handler tm r))).2 = None ->
  healthy w ->
  let es := map call_effect (calls (Handler tm r))
            ++ EExecute ByPage (tname gt)
               :: map (EWrite ByPage) (body gt (ret_data (Handler tm r))).1 in
  ServeHTTP tm r w = (Return tt, record w es)
  /\ lookups es = [].
Proof.
  intros He Hc Ht Hb Hw es. split.
  - rewrite ServeHTTP_eq, He, Hc, Ht.
    erewrite bind_Return by apply handleError_nil.
    change (negb (0 =? 0)) with false. unfold DirectTemplate. cbv iota. cbn [direct].
    rewrite render_clean by (exact Hb || by apply healthy_record).
    rewrite record_record. reflexivity.
  - unfold es, lookups. rewrite omap_app.
    destruct (handler_effects_facts (calls (Handler tm r))) as (H1 & _).
    destruct (page_output_facts (tname gt) (body gt (ret_data (Handler tm r))).1)
      as (_ & H2 & _).
    unfold lookups in H1, H2. by rewrite H1, H2.
Qed.

Lemma ServeHTTP_direct_template_skips_lookup_sample :
  ServeHTTP {| Templates := no_templates;
               Handler := page_handler []
                            (DirectTemplate (Some (static_page "inline" ["<p>hi</p>"]))) |}
            root_request (quiet no_disk)
  = (Return tt,
     record (quiet no_disk) [EExecute ByPage "inline"; EWrite ByPage "<p>hi</p>"]).
Proof.
  exact (proj1 (ServeHTTP_direct_template_skips_lookup
           {| Templates := no_templates;
              Handler := page_handler []
                           (DirectTemplate (Some (static_page "inline" ["<p>hi</p>"]))) |}
           root_request (quiet no_disk) (static_page "inline" ["<p>hi</p>"])
           eq_refl eq_refl eq_refl eq_refl (fun _ => eq_refl))).
Defined.

(** X11.  A page whose template is missing: the lookup error holds no
    [ErrorResponse], so the request is answered with status 500; and when
    [500.html] does not resolve either, the fallback is reached with a nil
    [er] and the request panics without a body.  The page template is
    never executed. *)
Theorem ServeHTTP_missing_page_template
    (tm : TemplateMiddleware) (r : Request) (w : World) (name : string)
    (le le' : error) (t' : option Tmpl) :
  ret_err (Handler tm r) = None ->
  captured 0 (calls (Handler tm r)) = 0 ->
  ret_t (Handler tm r) = NamedTemplate name ->
  LookupTemplate (Templates tm) (disk w) name = (None, Some le) ->
  errors_As le = None ->
  LookupTemplate (Templates tm) (disk w) "500.html" = (t', Some le') ->
  ServeHTTP tm r w =
    (Panic NilErrorResponse,
     record w (map call_effect (calls (Handler tm r)) ++
               [ELookup name; EWriteHeader ByErrorChain 500; ELog Warn (error_Error le);
                ELookup "500.html";
                ELog Warn ("Did not find template 500.html " +:+ error_Error le')])).
Proof.
  intros He Hc Ht Hl Ha Hl'.
  rewrite ServeHTTP_eq, He, Hc, Ht.
  erewrite bind_Return by apply handleError_nil.
  change (negb (0 =? 0)) with false. unfold NamedTemplate. cbv iota. cbn [direct named].
  erewrite bind_Return by apply Templates_LookupTemplate_eq.
  rewrite disk_record, Hl.
  erewrite bind_Panic
    by (apply (handleError_plain_unresolved tm le [] _ t' le' Ha); exact Hl').
  rewrite !record_record. reflexivity.
Qed.

Lemma ServeHTTP_missing_page_template_sample :
  ServeHTTP {| Templates := home_templates;
               Handler := page_handler [] (NamedTemplate "about.html") |}
            root_request (quiet no_disk)
  = (Panic NilErrorResponse,
     record (quiet no_disk)
       [ELookup "about.html"; EWriteHeader ByErrorChain 500;
        ELog Warn "cannot find template about.html"; ELookup "500.html";
        ELog Warn "Did not find template 500.html cannot find template 500.html"]).
Proof.
  exact (ServeHTTP_missing_page_template
           {| Templates := home_templates;
              Handler := page_handler [] (NamedTemplate "about.html") |}
           root_request (quiet no_disk) "about.html"
           (errorString "cannot find template about.html")
           (errorString "cannot find template 500.html") None
           eq_refl eq_refl eq_refl eq_refl eq_refl eq_refl).
Defined.

(** X12.  When the page template has written output and then fails, the
    error chain calls [WriteHeader] with the status of the error, but the
    body was started before: the status line sent to the client of a
    response the handler did not touch is 200, not the status of the
    error. *)
Theorem ServeHTTP_status_lost_after_page_output
    (tm : TemplateMiddleware) (r : Request) (w : World) (gt : Tmpl)
    (c : string) (cs : list string) (e : error) :
  ret_err (Handler tm r) = None ->
  calls (Handler tm r) = [] ->
  ret_t (Handler tm r) = DirectTemplate (Some gt) ->
  body gt (ret_data (Handler tm r)) = (c :: cs, Some e) ->
  healthy w ->
  effects w = [] ->
  header_codes (effects (ServeHTTP tm r w).2) = [status_of e]
  /\ response_status (effects (ServeHTTP tm r w).2) = 200.
Proof.
  intros He Hc Ht Hb Hw Hw0.
  rewrite ServeHTTP_eq, He, Hc, Ht.
  erewrite bind_Return by apply handleError_nil.
  change (negb (captured 0 [] =? 0)) with false. unfold DirectTemplate.
  cbv iota. cbn [direct map]. rewrite record_nil.
  erewrite bind_Return by (by apply Execute_healthy).
  rewrite Hb. cbn [fst snd map].
  destruct (handleError_shape tm e []
              (record w (EExecute ByPage (tname gt) :: EWrite ByPage c :: map (EWrite ByPage) cs)))
    as (o & es & E & Hout & Ho).
  destruct (error_output_facts es Hout) as (H1 & _).
  assert (Hfinal : forall o' : outcome unit,
    header_codes (effects (o', record (record w
        (EExecute ByPage (tname gt) :: EWrite ByPage c :: map (EWrite ByPage) cs))
        (chain_head e ++ es)).2) = [status_of e]
    /\ response_status (effects (o', record (record w
        (EExecute ByPage (tname gt) :: EWrite ByPage c :: map (EWrite ByPage) cs))
        (chain_head e ++ es)).2) = 200).
  { intros o'. cbn [snd]. rewrite !effects_record, Hw0. cbn [app]. split; [|reflexivity].
    change (header_codes (map (EWrite ByPage) cs ++ chain_head e ++ es) = [status_of e]).
    by rewrite !header_codes_app, header_codes_writes, H1. }
  destruct Ho as [->|[-> _]].
  - erewrite bind_Return by exact E. apply Hfinal.
  - erewrite bind_Panic by exact E. apply Hfinal.
Qed.

Lemma ServeHTTP_status_lost_after_page_output_sample :
  let es := effects
       (ServeHTTP {| Templates := no_templates;
                     Handler := page_handler []
                       (DirectTemplate (Some (broken_page "inline" ["<p>he"]))) |}
                  root_request (quiet no_disk)).2 in
  header_codes es = [500] /\ response_status es = 200.
Proof.
  exact (ServeHTTP_status_lost_after_page_output
           {| Templates := no_templates;
              Handler := page_handler []
                (DirectTemplate (Some (broken_page "inline" ["<p>he"]))) |}
           root_request (quiet no_disk) (broken_page "inline" ["<p>he"])
           "<p>he" [] (errorString "template: execution failed")
           eq_refl eq_refl eq_refl eq_refl (fun _ => eq_refl) eq_refl).
Defined.

Lemma last_cons_default {A : Type} (l : list A) (a d : A) :
  List.last (a :: l) d = List.last l a.
Proof.
  revert a d. induction l as [|b l IH]; intros a d; [reflexivity|].
  change (List.last (b :: l) d = List.last (b :: l) a). by rewrite !IH.
Qed.

(** X13.  The capturing writer is transparent: every call of the handler
    reaches the underlying writer, unchanged and in order.  What it records
    is the code of the last [WriteHeader]; [Write] calls leave the record
    alone, so a handler that only writes a body is not seen as having
    answered. *)
Theorem capturing_writer_records_last_status
    (init : Z) (cs : list call) (w : World) :
  run_calls {| statusCode := init |} cs w =
    (Return {| statusCode := List.last (header_codes (map call_effect cs)) init |},
     record w (map call_effect cs))
  /\ captured init cs = List.last (header_codes (map call_effect cs)) init
  /\ ((forall c, In c cs -> exists p, c = CallWrite p) -> captured init cs = init).
Proof.
  assert (H : forall i, captured i cs = List.last (header_codes (map call_effect cs)) i).
  { induction cs as [|c cs IH]; intros i; [reflexivity|].
    destruct c as [code|p].
    - change (captured code cs
              = List.last (code :: header_codes (map call_effect cs)) i).
      by rewrite last_cons_default, IH.
    - exact (IH i). }
  conjuncts.
  - rewrite run_calls_spec. cbn [statusCode]. by rewrite H.
  - apply H.
  - clear H. revert init. induction cs as [|c cs IH]; intros init Hall; [reflexivity|].
    destruct (Hall c (or_introl eq_refl)) as [p ->].
    apply IH. intros c' Hc'. apply Hall. by right.
Qed.

(** X14.  An error that holds an [ErrorResponse] whose status the writer
    accepts is always answered: the request returns normally, whatever the
    templates, the health of the writer and the handler's own calls, and
    the middleware's only [WriteHeader] call carries the status of the
    [ErrorResponse]. *)
Theorem ServeHTTP_error_response_never_panics
    (tm : TemplateMiddleware) (r : Request) (w : World) (e : error) (er : ErrorResponse) :
  ret_err (Handler tm r) = Some e ->
  errors_As e = Some er ->
  valid_code (Status er) = true ->
  exists es : list effect,
    ServeHTTP tm r w = (Return tt, record w (map call_effect (calls (Handler tm r)) ++ es))
    /\ header_codes es = [Status er]
    /\ lookups es = [templateFile_of (Status er)].
Proof.
  intros He Ha _. destruct (ServeHTTP_error tm r w e He) as (o & es & E & Hout & Ho).
  destruct (error_output_facts es Hout) as (H1 & H2 & _).
  exists (chain_head e ++ es). conjuncts.
  - destruct Ho as [->|[_ Hn]]; [exact E | rewrite Hn in Ha; discriminate].
  - rewrite header_codes_app, H1. unfold chain_head. by rewrite (status_of_As e er Ha).
  - unfold lookups in *. rewrite omap_app, H2. unfold chain_head.
    by rewrite (status_of_As e er Ha).
Qed.

Lemma ServeHTTP_error_response_never_panics_sample :
  exists es : list effect,
    ServeHTTP {| Templates := broken_403;
                 Handler := failing_handler [CallWrite "partial"]
                              (statusError 403 "forbidden") |}
              root_request (fresh (fun _ => true) no_disk)
    = (Return tt, record (fresh (fun _ => true) no_disk) (EWrite ByHandler "partial" :: es))
    /\ header_codes es = [403].
Proof.
  destruct (ServeHTTP_error_response_never_panics
              {| Templates := broken_403;
                 Handler := failing_handler [CallWrite "partial"]
                              (statusError 403 "forbidden") |}
              root_request (fresh (fun _ => true) no_disk)
              (statusError 403 "forbidden") {| Status := 403; Error := "forbidden" |}
              eq_refl eq_refl eq_refl)
    as (es & E & H & _).
  exists es. split; [exact E | exact H].
Defined.

(** X15.  [ServeHTTP] never executes a nil template handle, with either
    manager: a handle is executed only after a lookup that returned a nil
    error, and such a lookup never returns a nil handle. *)
Theorem ServeHTTP_never_executes_nil_handle
    (tm : TemplateMiddleware) (r : Request) (w : World) :
  (ServeHTTP tm r w).1 <> Panic NilTemplateHandle
  /\ (forall (e : error) (context : list string),
        (handleError tm (Some e) context w).1 <> Panic NilTemplateHandle).
Proof.
  split.
  - destruct (ServeHTTP_shape tm r w) as (o & es & E & _ & _ & Ho).
    rewrite E. cbn [fst]. destruct Ho as [->|[->|[-> _]]]; discriminate.
  - intros e context.
    destruct (handleError_shape tm e context w) as (o & es & E & _ & Ho).
    rewrite E. cbn [fst]. destruct Ho as [->|[-> _]]; discriminate.
Qed.

(** ** More on file names *)

Lemma filter_names_NoDup (P : DirEntry -> Prop) `{!forall e, Decision (P e)}
    (files : list DirEntry) :
  List.NoDup (map Name files) -> List.NoDup (map Name (filter P files)).
Proof.
  induction files as [|e files IH]; [by rewrite filter_nil|].
  cbn [map]. intros Hnd. apply List.NoDup_cons_iff in Hnd. destruct Hnd as [Hn Hd].
  rewrite filter_cons. destruct (decide (P e)); [|by apply IH].
  cbn [map]. apply List.NoDup_cons; [|by apply IH].
  intros Hin. apply Hn. apply in_map_iff in Hin. destruct Hin as (e' & Heq & He').
  apply in_map_iff. exists e'. split; [exact Heq|].
  apply list_elem_of_In. apply list_elem_of_In, list_elem_of_filter in He'. tauto.
Qed.

(** X16.  In a listing of plain entry names, the names under which
    [ParseFiles] files the templates are exactly the kept entry names, in
    the order of the listing; and entries with distinct names give distinct
    paths, so no file is parsed twice. *)
Theorem fixFiles_template_names (files : list DirEntry) (root : string) :
  (forall e, In e files -> plain_name (Name e) = true) ->
  map filepath_Base (fixFiles files root)
  = map Name (filter (fun e => ContainsAny (Name e) "#~" = false) files)
  /\ (List.NoDup (map Name files) -> List.NoDup (fixFiles files root)).
Proof.
  intros Hplain.
  assert (Hnames : map filepath_Base (fixFiles files root)
                   = map Name (filter (fun e => ContainsAny (Name e) "#~" = false) files)).
  { rewrite fixFiles_spec, map_map. apply map_ext_in. intros e He.
    apply filepath_Base_Join, Hplain.
    apply list_elem_of_In, list_elem_of_filter in He. destruct He as [_ He].
    by apply list_elem_of_In. }
  split; [exact Hnames|].
  intros Hnd. apply (List.NoDup_map_inv filepath_Base). rewrite Hnames.
  by apply filter_names_NoDup.
Qed.

Lemma fixFiles_template_names_sample :
  map filepath_Base (fixFiles tpl_listing "tpl") = ["403.html"; "index.html"].
Proof.
  assert (H : forall e, In e tpl_listing -> plain_name (Name e) = true).
  { intros e He. unfold tpl_listing in He.
    destruct He as [<-|[<-|[<-|[<-|[]]]]]; reflexivity. }
  exact (proj1 (fixFiles_template_names tpl_listing "tpl" H)).
Defined.

(** X17.  [fixFiles] works entry by entry: it never invents a path, the
    result is no longer than the listing, and filtering a listing in two
    parts gives the same as filtering it whole. *)
Theorem fixFiles_app (a b : list DirEntry) (root : string) :
  fixFiles (a ++ b) root = fixFiles a root ++ fixFiles b root
  /\ (length (fixFiles a root) <= length a)%nat
  /\ (forall p, In p (fixFiles a root) ->
        exists e, In e a /\ ContainsAny (Name e) "#~" = false
                  /\ p = filepath_Join root (Name e)).
Proof.
  conjuncts.
  - by rewrite !fixFiles_spec, filter_app, map_app.
  - rewrite fixFiles_spec, length_map. apply length_filter.
  - intros p. apply in_fixFiles_inv.
Qed.

Lemma list_ascii_of_string_app (a b : string) :
  list_ascii_of_string (a +:+ b) = list_ascii_of_string a ++ list_ascii_of_string b.
Proof.
  induction a as [|x a IH]; [reflexivity|].
  rewrite string_app_cons. cbn [list_ascii_of_string app]. by rewrite IH.
Qed.

(** X18.  Distinct status codes never share an error template: the file
    name [handleError] derives from the status determines the status. *)
Theorem templateFile_of_inj (a b : Z) :
  templateFile_of a = templateFile_of b -> a = b.
Proof.
  unfold templateFile_of. intros H.
  apply (f_equal list_ascii_of_string) in H.
  rewrite !list_ascii_of_string_app in H. apply app_inv_tail in H.
  apply (f_equal string_of_list_ascii) in H.
  rewrite !string_of_list_ascii_of_string in H.
  by apply (inj pretty) in H.
Qed.

Lemma templateFile_of_inj_sample : templateFile_of 404 = "404.html" /\ (404 : Z) = 404.
Proof.
  split; [vm_compute; reflexivity|].
  exact (templateFile_of_inj 404 404 eq_refl).
Defined.
